(** * pygls.uris: the Uri value type and its path / string conversions

    A shallow embedding of [pygls/uris.py] together with the parts of the
    Python standard library it calls ([urllib.parse], [posixpath] and
    [ntpath], [str] methods and the two regular expressions of the
    module).

    Python [str] values are modelled by [string], a character standing for
    the code point of the same number (U+0000 .. U+00FF).  Every function of
    the module maps this range to itself except [urllib.parse.unquote],
    which can decode a percent escape to a code point above U+00FF; the
    outcome [Unmodelled] records that a run has left the range.  A value that
    may be [None] is an [option string]. *)

From Stdlib Require Import String Ascii List NArith Bool Lia.
From stdpp Require Import gmap strings.

Import ListNotations.
Local Open Scope string_scope.
Local Open Scope bool_scope.

(** ** Outcomes of a call: a value, a raised exception, or a run that the
    model does not cover (it left the range of code points, or reached the
    [ipaddress] module). *)

Inductive exn : Type :=
| ValueError (msg : string)
| TypeError (msg : string)
| AttributeError (msg : string)
| IndexError (msg : string).

Inductive res (A : Type) : Type :=
| Ok (a : A)
| Raise (e : exn)
| Unmodelled.

Arguments Ok {A} a.
Arguments Raise {A} e.
Arguments Unmodelled {A}.

Definition bind {A B : Type} (m : res A) (k : A -> res B) : res B :=
  match m with
  | Ok a => k a
  | Raise e => Raise e
  | Unmodelled => Unmodelled
  end.

Notation "'let*' x ':=' m 'in' k" := (bind m (fun x => k))
  (at level 10, x name, m at level 100, k at level 200, only parsing).
Notation "'let*' ' p ':=' m 'in' k" := (bind m (fun x => let 'p := x in k))
  (at level 10, p pattern, m at level 100, k at level 200, only parsing).

Definition raises {A : Type} (m : res A) : bool :=
  match m with Raise _ => true | _ => false end.

(** Truthiness of a value that is a [str] or [None]. *)
Definition truthy (o : option string) : bool :=
  match o with
  | Some s => negb (s =? "")
  | None => false
  end.

(** What an f-string prints for such a value. *)
Definition fmt (o : option string) : string :=
  match o with
  | Some s => s
  | None => "None"
  end.

(** ** [str] methods *)
Module PyStr.

Definition code (c : ascii) : N := N_of_ascii c.

Definition in_range (lo hi : N) (c : ascii) : bool :=
  (lo <=? code c)%N && (code c <=? hi)%N.

Definition is_upper (c : ascii) : bool := in_range 65 90 c.
Definition is_lower (c : ascii) : bool := in_range 97 122 c.
Definition is_alpha (c : ascii) : bool := is_upper c || is_lower c.
Definition is_digit (c : ascii) : bool := in_range 48 57 c.
Definition is_ascii (c : ascii) : bool := (code c <? 128)%N.

(** [str.lower] on one character: A-Z, and the capital letters
    U+00C0 .. U+00DE except the multiplication sign U+00D7. *)
Definition lower_char (c : ascii) : ascii :=
  if is_upper c || (in_range 192 222 c && negb (code c =? 215)%N)
  then ascii_of_N (code c + 32)
  else c.

Fixpoint lower (s : string) : string :=
  match s with
  | "" => ""
  | String c r => String (lower_char c) (lower r)
  end.

Definition startswith (s p : string) : bool := String.prefix p s.

Fixpoint endswith_char (s : string) (c : ascii) : bool :=
  match s with
  | "" => false
  | String d "" => Ascii.eqb d c
  | String _ r => endswith_char r c
  end.

(** [c in s] for a one-character [c]. *)
Fixpoint contains (c : ascii) (s : string) : bool :=
  match s with
  | "" => false
  | String d r => Ascii.eqb d c || contains c r
  end.

(** [s.find(c)]: the index of the first [c], [None] for Python's -1. *)
Fixpoint find (c : ascii) (s : string) : option nat :=
  match s with
  | "" => None
  | String d r => if Ascii.eqb d c then Some 0 else option_map S (find c r)
  end.

(** [s.find(c, start)]. *)
Fixpoint find_from (c : ascii) (start : nat) (s : string) : option nat :=
  match start, s with
  | 0, _ => find c s
  | S _, "" => None
  | S n, String _ r => option_map S (find_from c n r)
  end.

(** [s.rfind(c)]. *)
Fixpoint rfind (c : ascii) (s : string) : option nat :=
  match s with
  | "" => None
  | String d r =>
      match rfind c r with
      | Some i => Some (S i)
      | None => if Ascii.eqb d c then Some 0 else None
      end
  end.

(** [s[:n]] and [s[n:]]; as in Python a bound past the end is the end. *)
Fixpoint take (n : nat) (s : string) : string :=
  match n, s with
  | S m, String c r => String c (take m r)
  | _, _ => ""
  end.

Fixpoint drop (n : nat) (s : string) : string :=
  match n, s with
  | S m, String _ r => drop m r
  | _, _ => s
  end.

(** [s[i:j]]. *)
Definition slice (i j : nat) (s : string) : string := take (j - i) (drop i s).

(** [s[i]], which raises [IndexError] past the end. *)
Definition index_at (i : nat) (s : string) : res ascii :=
  match String.get i s with
  | Some c => Ok c
  | None => Raise (IndexError "string index out of range")
  end.

(** [s.index(c, start)], which raises [ValueError] where [find] gives -1. *)
Definition index_from (c : ascii) (start : nat) (s : string) : res nat :=
  match find_from c start s with
  | Some i => Ok i
  | None => Raise (ValueError "substring not found")
  end.

(** [s.replace(c, r)] for a one-character [c]. *)
Fixpoint replace (c : ascii) (r : string) (s : string) : string :=
  match s with
  | "" => ""
  | String d t => if Ascii.eqb d c then r +:+ replace c r t
                  else String d (replace c r t)
  end.

(** [s.split(c)] for a one-character separator: never the empty list. *)
Fixpoint split (c : ascii) (s : string) : list string :=
  match s with
  | "" => [""]
  | String d r =>
      if Ascii.eqb d c then "" :: split c r
      else match split c r with
           | x :: xs => String d x :: xs
           | [] => [String d ""]
           end
  end.

(** [s.split(c, 1)] when [c in s]: the text before and after the first [c]. *)
Fixpoint split1 (c : ascii) (s : string) : string * string :=
  match s with
  | "" => ("", "")
  | String d r =>
      if Ascii.eqb d c then ("", r)
      else let '(a, b) := split1 c r in (String d a, b)
  end.

(** [sep.join(l)]. *)
Definition join (sep : string) (l : list string) : string := String.concat sep l.

(** [s.lstrip(chars)] for the characters satisfying [p]. *)
Fixpoint lstrip (p : ascii -> bool) (s : string) : string :=
  match s with
  | "" => ""
  | String c r => if p c then lstrip p r else s
  end.

Fixpoint forallb (p : ascii -> bool) (s : string) : bool :=
  match s with
  | "" => true
  | String c r => p c && forallb p r
  end.

(** [s.partition(c)]: the text before the first [c], whether [c] was
    found, and the text after it. *)
Fixpoint partition (c : ascii) (s : string) : string * bool * string :=
  match s with
  | "" => ("", false, "")
  | String d r =>
      if Ascii.eqb d c then ("", true, r)
      else let '(a, f, b) := partition c r in (String d a, f, b)
  end.

(** [s.rpartition(c)[2]]: the text after the last [c], all of [s] when
    there is none. *)
Fixpoint rpartition_tail (c : ascii) (s : string) : string :=
  match s with
  | "" => ""
  | String d r => if contains c r then rpartition_tail c r
                  else if Ascii.eqb d c then r else s
  end.

(** [x in l] for a list of strings. *)
Definition mem (x : string) (l : list string) : bool :=
  existsb (String.eqb x) l.

End PyStr.

(** ** The two regular expressions of the module, as [re.match] runs them *)
Module Re.
Import PyStr.

Definition newline : ascii := "010"%char.

Definition scheme_char (c : ascii) : bool :=
  is_alpha c || is_digit c || contains c "+.-".

(** The tail [[a-zA-Z\d+.-]*$]: the star is greedy and [$] matches at the
    end of the text or before a newline that ends it. *)
Fixpoint scheme_tail (s : string) : bool :=
  match s with
  | "" => true
  | String c r =>
      if scheme_char c then scheme_tail r
      else Ascii.eqb c newline && (r =? "")
  end.

(** [SCHEME.match(s)] for [SCHEME = ^[a-zA-Z][a-zA-Z\d+.-]*$]. *)
Definition SCHEME_match (s : string) : bool :=
  match s with
  | String c r => is_alpha c && scheme_tail r
  | "" => false
  end.

Definition drive_at (s : string) : bool :=
  match s with
  | String c (String d _) => is_alpha c && Ascii.eqb d ":"
  | _ => false
  end.

(** [RE_DRIVE_LETTER_PATH.match(s)] for [^(\/?)([a-zA-Z]:)]: the two groups
    and the end of the match.  The optional slash is tried first. *)
Definition RE_DRIVE_LETTER_PATH_match (s : string)
  : option (string * string * nat) :=
  if startswith s "/" && drive_at (drop 1 s) then Some ("/", slice 1 3 s, 3)
  else if drive_at s then Some ("", take 2 s, 2)
  else None.

Definition RE_DRIVE_LETTER_PATH_matches (s : string) : bool :=
  match RE_DRIVE_LETTER_PATH_match s with Some _ => true | None => false end.

End Re.

(** ** [urllib.parse] (CPython 3.11), on [str] arguments

    A [bytes] value is a [string] too, a character standing for the byte of
    the same number. *)
Module UrllibParse.
Import PyStr.

Definition bytes : Type := string.

(** [str.encode("utf-8")] for code points below 256. *)
Definition utf8_encode_char (c : ascii) : bytes :=
  if is_ascii c then String c ""
  else String (ascii_of_N (192 + code c / 64))
         (String (ascii_of_N (128 + code c mod 64)) "").

Fixpoint utf8_encode (s : string) : bytes :=
  match s with
  | "" => ""
  | String c r => utf8_encode_char c +:+ utf8_encode r
  end.

(** [bytes.decode("utf-8", "replace")].  [None] when the result holds a
    code point above U+00FF: a longer sequence, or U+FFFD standing for a
    malformed one. *)
Fixpoint utf8_decode (bs : bytes) : option string :=
  match bs with
  | "" => Some ""
  | String b r =>
      if is_ascii b then option_map (String b) (utf8_decode r)
      else if in_range 194 195 b then
        match r with
        | String b2 r2 =>
            if in_range 128 191 b2
            then option_map
                   (String (ascii_of_N ((code b - 192) * 64 + (code b2 - 128))))
                   (utf8_decode r2)
            else None
        | "" => None
        end
      else None
  end.

(** *** quote *)

(** [_ALWAYS_SAFE]. *)
Definition always_safe (c : ascii) : bool :=
  is_alpha c || is_digit c || contains c "_.-~".

Definition hex_digit (n : N) : ascii :=
  if (n <? 10)%N then ascii_of_N (48 + n) else ascii_of_N (55 + n).

(** ["%{:02X}".format(b)]. *)
Definition pct (b : ascii) : string :=
  String "%" (String (hex_digit (code b / 16))
                (String (hex_digit (code b mod 16)) "")).

(** [_Quoter(safe).__missing__]. *)
Definition quoter (safe : string) (b : ascii) : string :=
  if always_safe b || contains b safe then String b "" else pct b.

Fixpoint quote_from_bytes (safe : string) (bs : bytes) : string :=
  match bs with
  | "" => ""
  | String b r => quoter safe b +:+ quote_from_bytes safe r
  end.

(** [quote(s)] with the default [safe="/"].  It is total on the texts of
    the model; on a [str] with a lone surrogate, which is outside of them,
    CPython raises [UnicodeEncodeError]. *)
Definition quote (s : string) : string :=
  quote_from_bytes "/" (utf8_encode s).

(** *** unquote *)

Definition hex_val (c : ascii) : option N :=
  if is_digit c then Some (code c - 48)%N
  else if in_range 65 70 c then Some (code c - 55)%N
  else if in_range 97 102 c then Some (code c - 87)%N
  else None.

(** [_hextobyte[k]]; [None] is the [KeyError]. *)
Definition hextobyte (k : bytes) : option ascii :=
  match k with
  | String a (String b "") =>
      match hex_val a, hex_val b with
      | Some x, Some y => Some (ascii_of_N (16 * x + y))
      | _, _ => None
      end
  | _ => None
  end.

(** The body of the loop of [unquote_to_bytes] for one item. *)
Definition unquote_item (item : bytes) : bytes :=
  match hextobyte (take 2 item) with
  | Some b => String b (drop 2 item)
  | None => String "%" item
  end.

(** [unquote_to_bytes(s)]: the text is encoded, split at the percent signs
    and put together again item by item. *)
Definition unquote_bytes (bs : bytes) : bytes :=
  match split "%" bs with
  | [] => ""
  | b0 :: items => b0 +:+ String.concat "" (map unquote_item items)
  end.

Definition unquote_to_bytes (s : string) : bytes :=
  unquote_bytes (utf8_encode s).

(** [_asciire.split(s)] for [_asciire = ([\x00-\x7f]+)]: the text before
    the first ASCII run, then each run with the text that follows it. *)
Fixpoint asciire_split (s : string) : string * list (string * string) :=
  match s with
  | "" => ("", [])
  | String c r =>
      let '(h, l) := asciire_split r in
      if is_ascii c then
        match h, l with
        | "", (run, tl) :: l' => ("", (String c run, tl) :: l')
        | _, _ => ("", (String c "", h) :: l)
        end
      else (String c h, l)
  end.

Fixpoint unquote_runs (runs : list (string * string)) : res string :=
  match runs with
  | [] => Ok ""
  | (run, tl) :: more =>
      match utf8_decode (unquote_to_bytes run) with
      | None => Unmodelled
      | Some d => let* rest := unquote_runs more in Ok (d +:+ tl +:+ rest)
      end
  end.

(** The general case of [unquote]: each ASCII run is decoded, the text
    between the runs is kept. *)
Definition unquote_parts (s : string) : res string :=
  let '(b0, runs) := asciire_split s in
  let* rest := unquote_runs runs in Ok (b0 +:+ rest).

Definition unquote (s : string) : res string :=
  if negb (contains "%" s) then Ok s else unquote_parts s.

(** *** urlsplit and urlparse *)

Definition uses_netloc : list string :=
  [""; "ftp"; "http"; "gopher"; "nntp"; "telnet"; "imap"; "wais"; "file";
   "mms"; "https"; "shttp"; "snews"; "prospero"; "rtsp"; "rtspu"; "rsync";
   "svn"; "svn+ssh"; "sftp"; "nfs"; "git"; "git+ssh"; "ws"; "wss"].

Definition uses_params : list string :=
  [""; "ftp"; "hdl"; "prospero"; "http"; "imap"; "https"; "shttp"; "rtsp";
   "rtspu"; "sip"; "sips"; "mms"; "sftp"; "tel"].

Definition scheme_chars (c : ascii) : bool :=
  is_alpha c || is_digit c || contains c "+-.".

(** [_WHATWG_C0_CONTROL_OR_SPACE]. *)
Definition c0_control_or_space (c : ascii) : bool := (code c <=? 32)%N.

Definition tab : ascii := "009"%char.
Definition cr : ascii := "013"%char.
Definition lf : ascii := "010"%char.

Definition min_delim (delim : nat) (wdelim : option nat) : nat :=
  match wdelim with
  | Some w => Nat.min delim w
  | None => delim
  end.

Definition splitnetloc (url : string) (start : nat) : string * string :=
  let delim := String.length url in
  let delim := min_delim delim (find_from "/" start url) in
  let delim := min_delim delim (find_from "?" start url) in
  let delim := min_delim delim (find_from "#" start url) in
  (slice start delim url, drop delim url).

(** [_check_bracketed_netloc]: the shape checks are modelled, the check
    of the bracketed host is not.  There [_check_bracketed_host] returns,
    or raises a [ValueError] of its own or of [ipaddress.ip_address]; the
    model answers [Unmodelled], so that a statement about what is raised
    speaks of these runs only when it says so. *)
Definition check_bracketed_netloc (netloc : string) : res unit :=
  let hostname_and_port := rpartition_tail "@" netloc in
  let '(before_bracket, have_open_br, bracketed) :=
    partition "[" hostname_and_port in
  if have_open_br then
    if negb (before_bracket =? "") then Raise (ValueError "Invalid IPv6 URL")
    else
      let '(_, _, port) := partition "]" bracketed in
      if negb (port =? "") && negb (startswith port ":")
      then Raise (ValueError "Invalid IPv6 URL")
      else Unmodelled
  else Unmodelled.

(** The steps of [urlsplit(url)], in the order of the source. *)

(** Leading C0 controls and spaces are stripped, tabs and line ends removed. *)
Definition sanitize (url : string) : string :=
  let url := lstrip c0_control_or_space url in
  let url := replace tab "" url in
  let url := replace cr "" url in
  replace lf "" url.

(** The scheme: the text before the first colon when it is a letter followed
    by scheme characters; it is lower-cased. *)
Definition split_scheme (url : string) : string * string :=
  match find ":" url with
  | Some (S i') =>
      let i := S i' in
      match url with
      | String c0 _ =>
          if is_ascii c0 && is_alpha c0 && forallb scheme_chars (take i url)
          then (lower (take i url), drop (i + 1) url)
          else ("", url)
      | "" => ("", url)
      end
  | _ => ("", url)
  end.

(** The netloc after [//], with the checks of its brackets. *)
Definition split_netloc (url : string) : res (string * string) :=
  if take 2 url =? "//" then
    let '(netloc, url) := splitnetloc url 2 in
    if (contains "[" netloc && negb (contains "]" netloc))
       || (contains "]" netloc && negb (contains "[" netloc))
    then Raise (ValueError "Invalid IPv6 URL")
    else if contains "[" netloc && contains "]" netloc
    then let* _ := check_bracketed_netloc netloc in Ok (netloc, url)
    else Ok (netloc, url)
  else Ok ("", url).

(** The fragment, then the query. *)
Definition split_fragment_query (url : string) : string * string * string :=
  let '(url, fragment) :=
    if contains "#" url then split1 "#" url else (url, "") in
  let '(url, query) :=
    if contains "?" url then split1 "?" url else (url, "") in
  (url, query, fragment).

(** [urlsplit(url)].  [_checknetloc] is left out: it raises only when the
    NFKC form of the netloc holds one of [/?#@:] that the netloc does not,
    which no code point below 256 brings about. *)
Definition urlsplit (url : string)
  : res (string * string * string * string * string) :=
  let url := sanitize url in
  let '(scheme, url) := split_scheme url in
  let* '(netloc, url) := split_netloc url in
  let '(url, query, fragment) := split_fragment_query url in
  Ok (scheme, netloc, url, query, fragment).

Definition splitparams (url : string) : string * string :=
  if contains "/" url then
    match find_from ";" (default 0 (rfind "/" url)) url with
    | None => (url, "")
    | Some i => (take i url, drop (i + 1) url)
    end
  else
    match find ";" url with
    | Some i => (take i url, drop (i + 1) url)
    | None => (take (String.length url - 1) url, url)
    end.

Definition urlparse (url : string)
  : res (string * string * string * string * string * string) :=
  let* '(scheme, netloc, url, query, fragment) := urlsplit url in
  let '(url, params) :=
    if mem scheme uses_params && contains ";" url then splitparams url
    else (url, "") in
  Ok (scheme, netloc, url, params, query, fragment).

(** *** urlunsplit and urlunparse *)

Definition urlunsplit (scheme netloc url query fragment : string) : string :=
  let url :=
    if negb (netloc =? "")
       || (negb (scheme =? "") && mem scheme uses_netloc
           && negb (take 2 url =? "//"))
    then
      let url := if negb (url =? "") && negb (take 1 url =? "/")
                 then "/" +:+ url else url in
      "//" +:+ netloc +:+ url
    else url in
  let url := if negb (scheme =? "") then scheme +:+ ":" +:+ url else url in
  let url := if negb (query =? "") then url +:+ "?" +:+ query else url in
  let url := if negb (fragment =? "") then url +:+ "#" +:+ fragment else url in
  url.

Definition urlunparse (scheme netloc url params query fragment : string)
  : string :=
  let url := if negb (params =? "") then url +:+ ";" +:+ params else url in
  urlunsplit scheme netloc url query fragment.

End UrllibParse.

(** ** [posixpath]: [os.path] on a POSIX platform *)
Module PosixPath.
Import PyStr.

(** [join(a, b)]. *)
Definition join (a b : string) : string :=
  if startswith b "/" then b
  else if (a =? "") || endswith_char a "/" then a +:+ b
  else a +:+ "/" +:+ b.

(** The loop of [normpath] over the components. *)
Fixpoint norm_comps (initial_slashes : nat) (new_comps : list string)
    (comps : list string) : list string :=
  match comps with
  | [] => new_comps
  | comp :: rest =>
      if (comp =? "") || (comp =? ".") then
        norm_comps initial_slashes new_comps rest
      else if negb (comp =? "..")
              || ((initial_slashes =? 0)%nat && (length new_comps =? 0)%nat)
              || (match last new_comps with
                  | Some l => l =? ".."
                  | None => false
                  end)
      then norm_comps initial_slashes (new_comps ++ [comp]) rest
      else norm_comps initial_slashes (removelast new_comps) rest
  end.

Definition normpath (path : string) : string :=
  if path =? "" then "."
  else
    let initial_slashes :=
      if startswith path "/" then
        if startswith path "//" && negb (startswith path "///") then 2 else 1
      else 0 in
    let comps := norm_comps initial_slashes [] (split "/" path) in
    let path := PyStr.join "/" comps in
    let path := String.concat "" (repeat "/" initial_slashes) +:+ path in
    if path =? "" then "." else path.

End PosixPath.

(** ** [ntpath]: [os.path] on Windows (CPython 3.11)

    [normpath] is the definition that [ntpath.py] gives in Python; on
    Windows the interpreter runs [nt._path_normpath], written in C to the
    same contract. *)
Module NtPath.
Import PyStr.

Definition sep : ascii := "\"%char.
Definition altsep : ascii := "/"%char.

(** [c in seps]. *)
Definition is_sep (c : ascii) : bool := Ascii.eqb c sep || Ascii.eqb c altsep.

(** [s and s[0] in seps] and [s and s[-1] in seps]. *)
Definition starts_with_sep (s : string) : bool :=
  match s with
  | String c _ => is_sep c
  | "" => false
  end.

Definition ends_with_sep (s : string) : bool :=
  endswith_char s sep || endswith_char s altsep.

(** [str.upper] on the letters a-z.  The other characters below U+0100
    have no ASCII capital for upper case (U+00DF gives [SS]), so that
    [upper_ascii s] is equal to a text of ASCII capitals and signs other
    than [S] exactly when [s.upper()] is. *)
Fixpoint upper_ascii (s : string) : string :=
  match s with
  | "" => ""
  | String c r =>
      String (if is_lower c then ascii_of_N (code c - 32) else c)
             (upper_ascii r)
  end.

Definition unc_prefix : string := "\\?\UNC\".

(** [splitdrive(p)]. *)
Definition splitdrive (p : string) : string * string :=
  if (2 <=? String.length p)%nat then
    let normp := replace altsep (String sep "") p in
    if slice 0 2 normp =? String sep (String sep "") then
      let start := if upper_ascii (take 8 normp) =? unc_prefix then 8 else 2 in
      match find_from sep start normp with
      | None => (p, "")
      | Some index =>
          match find_from sep (index + 1) normp with
          | None => (p, "")
          | Some index2 => (take index2 p, drop index2 p)
          end
      end
    else if slice 1 2 normp =? ":" then (take 2 p, drop 2 p)
    else ("", p)
  else ("", p).

(** [join(path, p)]: the body of the loop, run once, and the return. *)
Definition join (path p : string) : string :=
  let '(result_drive, result_path) := splitdrive path in
  let '(p_drive, p_path) := splitdrive p in
  let '(result_drive, result_path) :=
    if starts_with_sep p_path then
      ((if negb (p_drive =? "") || (result_drive =? "")
        then p_drive else result_drive),
       p_path)
    else if negb (p_drive =? "") && negb (p_drive =? result_drive)
            && negb (lower p_drive =? lower result_drive)
    then (p_drive, p_path)
    else
      let result_drive :=
        if negb (p_drive =? "") && negb (p_drive =? result_drive)
        then p_drive else result_drive in
      let result_path :=
        if negb (result_path =? "") && negb (ends_with_sep result_path)
        then result_path +:+ String sep "" else result_path in
      (result_drive, result_path +:+ p_path) in
  if negb (result_path =? "") && negb (starts_with_sep result_path)
     && negb (result_drive =? "") && negb (endswith_char result_drive ":")
  then result_drive +:+ String sep "" +:+ result_path
  else result_drive +:+ result_path.

(** The loop of [normpath]: [done] holds [comps[:i]], the components before
    the index, and [comps] those from the index on. *)
Fixpoint norm_comps (prefix_ends_with_sep : bool) (done comps : list string)
  : list string :=
  match comps with
  | [] => done
  | comp :: rest =>
      if (comp =? "") || (comp =? ".") then
        norm_comps prefix_ends_with_sep done rest
      else if comp =? ".." then
        if (0 <? length done)%nat
           && negb (match last done with
                    | Some l => l =? ".."
                    | None => false
                    end)
        then norm_comps prefix_ends_with_sep (removelast done) rest
        else if (length done =? 0)%nat && prefix_ends_with_sep
        then norm_comps prefix_ends_with_sep done rest
        else norm_comps prefix_ends_with_sep (done ++ [comp]) rest
      else norm_comps prefix_ends_with_sep (done ++ [comp]) rest
  end.

Definition normpath (path : string) : string :=
  let path := replace altsep (String sep "") path in
  let '(prefix, path) := splitdrive path in
  let '(prefix, path) :=
    if startswith path (String sep "")
    then (prefix +:+ String sep "", lstrip (fun c => Ascii.eqb c sep) path)
    else (prefix, path) in
  let comps := norm_comps (endswith_char prefix sep) [] (split sep path) in
  let comps :=
    if (prefix =? "") && (length comps =? 0)%nat then (comps ++ ["."])%list
    else comps in
  prefix +:+ PyStr.join (String sep "") comps.

End NtPath.

(** ** [os.path]: the module the platform selects ([posixpath] or [ntpath]) *)
Class OsPath : Type := {
  os_path_join : string -> string -> string;
  os_path_normpath : string -> string
}.

#[export] Instance posixpath : OsPath := {|
  os_path_join := PosixPath.join;
  os_path_normpath := PosixPath.normpath
|}.

#[export] Instance ntpath : OsPath := {|
  os_path_join := NtPath.join;
  os_path_normpath := NtPath.normpath
|}.

(** ** [pygls/uris.py] *)
Module Uris.
Import PyStr Re.

(** The attrs class [Uri].  The fields are annotated [str], and nothing
    checks the annotation: [where] can store [None] in them. *)
Record Uri : Type := Build_Uri {
  scheme : option string;
  authority : option string;
  path : option string;
  query : option string;
  fragment : option string
}.

#[export] Instance Uri_eq_dec : EqDecision Uri.
Proof. solve_decision. Defined.

Section Platform.
(** [pygls.IS_WIN], read once when the package is imported. *)
Variable IS_WIN : bool.
Context {os_path : OsPath}.

Definition backslash : ascii := "\"%char.

Definition _replace_chars (segment : string) : string :=
  replace "?" "%3F" (replace "#" "%23" segment).

Definition _normalize_path (path : string) : string :=
  let path := if IS_WIN then replace backslash "/" path else path in
  match RE_DRIVE_LETTER_PATH_match path with
  | Some (g1, g2, e) => g1 +:+ lower g2 +:+ drop e path
  | None => path
  end.

(** [path] is whatever the caller passed: a [str] or [None]. *)
Definition _normalize_win_path (path : option string)
  : res (string * string) :=
  let netloc := "" in
  let* path :=
    if IS_WIN then
      match path with
      | Some p => Ok (Some (replace backslash "/" p))
      | None =>
          Raise (AttributeError "'NoneType' object has no attribute 'replace'")
      end
    else Ok path in
  let* path :=
    match path with
    | Some p => Ok p
    | None => Raise (TypeError "'NoneType' object is not subscriptable")
    end in
  let* '(path, netloc) :=
    if take 2 path =? "//" then
      (* [str.index] raises where [str.find] returns -1, so the branch
         [idx == -1] of the source is never taken *)
      let* idx := index_from "/" 2 path in
      Ok (drop idx path, slice 2 idx path)
    else Ok (path, netloc) in
  let path := if negb (startswith path "/") then "/" +:+ path else path in
  let* path :=
    if RE_DRIVE_LETTER_PATH_matches path then
      let* c0 := index_at 0 path in
      let* c1 := index_at 1 path in
      Ok (String c0 (String (lower_char c1) (drop 2 path)))
    else Ok path in
  Ok (path, netloc).

(** [urlparse(uri)]: parse, then decode each part. *)
Definition urlparse (uri : string)
  : res (string * string * string * string * string * string) :=
  let* '(scheme, netloc, path, params, query, fragment) :=
    UrllibParse.urlparse uri in
  let* scheme := UrllibParse.unquote scheme in
  let* netloc := UrllibParse.unquote netloc in
  let* path := UrllibParse.unquote path in
  let* params := UrllibParse.unquote params in
  let* query := UrllibParse.unquote query in
  let* fragment := UrllibParse.unquote fragment in
  Ok (scheme, netloc, path, params, query, fragment).

(** [urlunparse(parts)]: encode each part, then unparse. *)
Definition urlunparse (scheme netloc path params query fragment : string)
  : string :=
  let quoted_path :=
    if RE_DRIVE_LETTER_PATH_matches path
    then take 3 path +:+ UrllibParse.quote (drop 3 path)
    else UrllibParse.quote path in
  UrllibParse.urlunparse
    (UrllibParse.quote scheme) (UrllibParse.quote netloc) quoted_path
    (UrllibParse.quote params) (UrllibParse.quote query)
    (UrllibParse.quote fragment).

Definition from_fs_path (path : option string) : res (option string) :=
  match
    (let scheme := "file" in
     let* '(path, netloc) := _normalize_win_path path in
     Ok (urlunparse scheme netloc path "" "" ""))
  with
  | Ok v => Ok (Some v)
  | Raise (AttributeError _) | Raise (TypeError _) => Ok None
  | Raise e => Raise e
  | Unmodelled => Unmodelled
  end.

(** [uri] is a [str] here and in [uri_scheme]; the handlers are for the
    errors of other arguments. *)
Definition to_fs_path (uri : string) : res (option string) :=
  match
    (let* '(scheme, netloc, path, _params, _query, _fragment) :=
       urlparse uri in
     let* value :=
       if negb (netloc =? "") && negb (path =? "") && (scheme =? "file")
       then Ok ("//" +:+ netloc +:+ path)
       else if RE_DRIVE_LETTER_PATH_matches path then
         let* c1 := index_at 1 path in
         Ok (String (lower_char c1) (drop 2 path))
       else Ok path in
     let value := if IS_WIN then replace "/" "\" value else value in
     Ok value)
  with
  | Ok v => Ok (Some v)
  | Raise (TypeError _) => Ok None
  | Raise e => Raise e
  | Unmodelled => Unmodelled
  end.

Definition uri_scheme (uri : string) : res (option string) :=
  match urlparse uri with
  | Ok (scheme, _, _, _, _, _) => Ok (Some scheme)
  | Raise (TypeError _) | Raise (IndexError _) => Ok None
  | Raise e => Raise e
  | Unmodelled => Unmodelled
  end.

(** [x or y] for an argument [x] that is a [str] or [None]. *)
Definition or_else (x : option string) (y : string) : string :=
  if truthy x then fmt x else y.

(** [uri_with(uri, scheme, netloc, path, params, query, fragment)], each
    argument after the first being [None] when it is not given. *)
Definition uri_with (uri : string)
    (scheme netloc path params query fragment : option string) : res string :=
  let* '(old_scheme, old_netloc, old_path, old_params, old_query, old_fragment) :=
    urlparse uri in
  let* '(path, _netloc) := _normalize_win_path path in
  Ok (urlunparse (or_else scheme old_scheme) (or_else netloc old_netloc)
        (if negb (path =? "") then path else old_path)
        (or_else params old_params) (or_else query old_query)
        (or_else fragment old_fragment)).

(** *** The class *)

Definition __attrs_post_init__ (self : Uri) : res unit :=
  match self.(scheme) with
  | None => Raise (ValueError "URIs must have a scheme")
  | Some sch =>
      if negb (SCHEME_match sch) then Raise (ValueError "Invalid scheme")
      else if truthy self.(authority) && truthy self.(path)
              && negb (startswith (fmt self.(path)) "/")
      then Raise (ValueError
                    "Paths with an authority must start with a slash '/'")
      else if truthy self.(path) && startswith (fmt self.(path)) "//"
              && negb (truthy self.(authority))
      then Raise (ValueError
             "Paths without an authority cannot start with two slashes '//'")
      else Ok tt
  end.

(** [cls(scheme=..., ...)]: the generated [__init__], which stores the
    fields and runs the validation. *)
Definition Uri_init (scheme authority path query fragment : option string)
  : res Uri :=
  let self := Build_Uri scheme authority path query fragment in
  let* _ := __attrs_post_init__ self in
  Ok self.

Definition create (scheme authority path query fragment : option string)
  : res Uri :=
  let* path :=
    if match scheme with
       | Some sch => mem sch ["http"; "https"; "file"]
       | None => false
       end
    then
      match path with
      | None =>
          Raise (AttributeError
                   "'NoneType' object has no attribute 'startswith'")
      | Some p => if negb (startswith p "/") then Ok (Some ("/" +:+ p))
                  else Ok (Some p)
      end
    else Ok path in
  Uri_init scheme authority path query fragment.

Definition parse (uri : string) : res Uri :=
  let* '(scheme, authority, path, _, query, fragment) := urlparse uri in
  create (Some scheme) (Some authority) (Some path) (Some query)
    (Some fragment).

Definition for_file (filepath : string) : res Uri :=
  let filepath :=
    if IS_WIN then replace backslash "/" filepath else filepath in
  let '(authority, filepath) :=
    if startswith filepath "//" then
      match split "/" (drop 2 filepath) with
      | authority :: path => (authority, PyStr.join "/" path)
      | [] => ("", filepath)
      end
    else ("", filepath) in
  create (Some "file") (Some authority) (Some filepath) (Some "") (Some "").

Definition fs_path (self : Uri) : option string :=
  if truthy self.(path) then
    let path := _normalize_path (fmt self.(path)) in
    let path :=
      if truthy self.(authority) && (1 <? String.length path)%nat
      then "//" +:+ fmt self.(authority) +:+ path
      else if RE_DRIVE_LETTER_PATH_matches path then drop 1 path
      else path in
    let path := if IS_WIN then replace backslash "/" path else path in
    Some path
  else None.

Definition keys : gset string :=
  list_to_set ["scheme"; "authority"; "path"; "query"; "fragment"].

(** [Uri.create] called with the dict [kw] unpacked into keyword
    arguments: a key that is absent takes the default, the empty text. *)
Definition create_kw (kw : gmap string (option string)) : res Uri :=
  create (default (Some "") (kw !! "scheme"))
         (default (Some "") (kw !! "authority"))
         (default (Some "") (kw !! "path"))
         (default (Some "") (kw !! "query"))
         (default (Some "") (kw !! "fragment")).

Definition where_ (self : Uri) (kwargs : gmap string (option string))
  : res Uri :=
  let valid_keys := keys ∩ dom kwargs in
  let current : gmap string (option string) :=
    list_to_map [("scheme", self.(scheme)); ("authority", self.(authority));
                 ("path", self.(path)); ("query", self.(query));
                 ("fragment", self.(fragment))] in
  let replacements : gmap string (option string) :=
    filter (fun kv => kv.1 ∈ valid_keys) kwargs in
  create_kw (replacements ∪ current).

Definition join (self : Uri) (path : string) : res Uri :=
  if negb (truthy self.(Uris.path)) then
    Raise (ValueError "This uri has no path")
  else
    let new_path :=
      os_path_normpath (os_path_join (fmt self.(Uris.path)) path) in
    where_ self {[ "path" := Some new_path ]}.

(** The block of [as_string] that rewrites a non-empty authority: the
    credentials before the first [@] and the host are encoded, the host and
    port are lower-cased, the port is kept as it is. *)
Definition encode_authority (encoder : string -> string) (authority : string)
  : string :=
  let '(usercred, authority) :=
    match split "@" authority with
    | usercred :: ((_ :: _) as auth) =>
        let pieces := split ":" usercred in
        let user := removelast pieces in
        let cred := List.last pieces "" in
        let usercred :=
          if (0 <? length user)%nat
          then encoder (PyStr.join ":" user) +:+ ":" +:+ encoder cred
          else encoder usercred in
        (Some usercred, PyStr.join "@" auth)
    | _ => (None, authority)
    end in
  let authority := lower authority in
  let pieces := split ":" authority in
  let auth := removelast pieces in
  let port := List.last pieces "" in
  let authority :=
    if (0 <? length auth)%nat
    then encoder (PyStr.join ":" auth) +:+ ":" +:+ port
    else encoder authority in
  if truthy usercred then fmt usercred +:+ "@" +:+ authority
  else authority.

Definition as_string (self : Uri) (encode : bool) : string :=
  let encoder := if encode then UrllibParse.quote else _replace_chars in
  let authority :=
    if truthy self.(authority)
    then encode_authority encoder (fmt self.(authority))
    else "" in
  let scheme_separator :=
    if negb (authority =? "") || (fmt self.(scheme) =? "file")
    then "//" else "" in
  let path :=
    if truthy self.(path) then encoder (_normalize_path (fmt self.(path)))
    else "" in
  let query :=
    if truthy self.(query) then encoder (fmt self.(query)) else "" in
  let fragment :=
    if truthy self.(fragment) then encoder (fmt self.(fragment)) else "" in
  String.concat ""
    [fmt self.(scheme) +:+ ":";
     scheme_separator;
     authority;
     path;
     if negb (query =? "") then "?" +:+ query else "";
     if negb (fragment =? "") then "#" +:+ fragment else ""].

Definition __fspath__ (self : Uri) : option string := fs_path self.

Definition __str__ (self : Uri) : string := as_string self true.

Definition __truediv__ (self : Uri) (other : string) : res Uri :=
  join self other.

End Platform.
End Uris.


(** * Properties *)

Import PyStr Re Uris UrllibParse.

(** A [Uri] whose five fields are the given texts. *)
Definition uri_of (scheme authority path query fragment : string) : Uri :=
  Build_Uri (Some scheme) (Some authority) (Some path) (Some query)
    (Some fragment).

(** [create] called with keyword arguments that are all texts. *)
Definition create_str (scheme authority path query fragment : string)
  : res Uri :=
  create (Some scheme) (Some authority) (Some path) (Some query)
    (Some fragment).

(** The value [where] passes on for one component: the one given in the
    call when the key is present, the current one otherwise. *)
Definition pick (kwargs : gmap string (option string)) (k : string)
    (current : option string) : option string :=
  match kwargs !! k with
  | Some v => v
  | None => current
  end.

(** A scheme as [urlsplit] returns it: the grammar of [SCHEME] in lower
    case, with no line end after it. *)
Definition canonical_scheme (s : string) : bool :=
  SCHEME_match s && forallb (fun c => scheme_char c && negb (is_upper c)) s.




(** *** Vocabulary of the round trip *)

(** All characters, to check a fact about one character on each of them. *)
Definition all_chars : list ascii := map ascii_of_nat (seq 0 256).

Definition every_char (P : ascii -> bool) : bool := List.forallb P all_chars.

(** An encoder that works character by character, and the text that
    [quote] and [_replace_chars] make of one character. *)
Fixpoint charwise (f : ascii -> string) (x : string) : string :=
  match x with
  | "" => ""
  | String c r => f c +:+ charwise f r
  end.

Definition quote_char (c : ascii) : string :=
  UrllibParse.quote_from_bytes "/" (UrllibParse.utf8_encode_char c).

Definition replace_char (c : ascii) : string :=
  if Ascii.eqb c "#" then "%23" else if Ascii.eqb c "?" then "%3F"
  else String c "".

(** The first character of a text is [c]. *)
Definition head_is (c : ascii) (x : string) : bool :=
  match x with String d _ => Ascii.eqb d c | "" => false end.

(** An encoder of characters that maps the slash to itself and every other
    character to a text that does not start with a slash. *)
Definition keeps_slash (f : ascii -> string) : Prop :=
  forall c, (if Ascii.eqb c "/" then f c =? "/"
             else negb (f c =? "") && negb (head_is "/" (f c))) = true.

(** A text at which an ASCII run of [unquote] ends. *)
Definition starts_non_ascii (r : string) : bool :=
  match r with
  | "" => true
  | String c _ => negb (is_ascii c)
  end.

(** A text at which a netloc ends: empty, or starting with a delimiter. *)
Definition delim_start (r : string) : bool :=
  match r with
  | "" => true
  | String c _ => contains c "/?#"
  end.

(** A query or fragment with its mark in front, nothing when it is empty. *)
Definition with_mark (c : ascii) (x : string) : string :=
  if negb (x =? "") then String c x else "".

(** The scheme separator of [as_string]. *)
Definition separator (s a : string) : string :=
  if negb (a =? "") || (s =? "file") then "//" else "".


(** The characters of an encoded component: no delimiter of [urlsplit] and
    nothing that it removes. *)
Definition part_char (c : ascii) : bool :=
  negb (contains c "#?" || Ascii.eqb c UrllibParse.tab
        || Ascii.eqb c UrllibParse.cr || Ascii.eqb c UrllibParse.lf).

Definition clean_char (c : ascii) : bool :=
  negb (Ascii.eqb c UrllibParse.tab || Ascii.eqb c UrllibParse.cr
        || Ascii.eqb c UrllibParse.lf).

(** The schemes for which [create] puts a slash in front of the path. *)
Definition coerced : list string := ["http"; "https"; "file"].

(** *** Vocabulary of the authority

    [as_string] writes the authority part by part: the credentials before
    the first [@] and the host through the encoder, the text after the
    last colon of the host and port as it is. *)

(** The characters of a netloc that [urlsplit] reads as they are written:
    no delimiter, no bracket, and nothing that it removes. *)
Definition netloc_text_char (c : ascii) : bool :=
  clean_char c && negb (contains c "/?#[]").










(** *** Vocabulary of the further properties *)

(** The invariants of the class, read off [__attrs_post_init__]. *)
Definition valid (u : Uri) : Prop :=
  exists s, scheme u = Some s /\ SCHEME_match s = true
  /\ (truthy (authority u) = true -> truthy (path u) = true ->
      startswith (fmt (path u)) "/" = true)
  /\ (truthy (path u) = true -> startswith (fmt (path u)) "//" = true ->
      truthy (authority u) = true).

(** The path [create] stores: with a slash in front under the schemes
    http, https and file. *)
Definition coerce_path (s p : string) : string :=
  if mem s coerced && negb (startswith p "/") then "/" +:+ p else p.

(** A path in the separators of the platform, as [to_fs_path] writes it. *)
Definition native (is_win : bool) (v : string) : string :=
  if is_win then replace "/" "\" v else v.

(** A path as the functions of the module read it on the platform. *)
Definition slashed (is_win : bool) (p : string) : string :=
  if is_win then replace backslash "/" p else p.

(** The path part of the text [urlunparse] builds: the drive letter and its
    colon are not encoded. *)
Definition quoted_path (path : string) : string :=
  if RE_DRIVE_LETTER_PATH_matches path
  then take 3 path +:+ quote (drop 3 path)
  else quote path.

(** The characters of an encoded netloc: what [quote] writes, the slash
    apart. *)
Definition netloc_char (c : ascii) : bool :=
  always_safe c || Ascii.eqb c "%".

(** The last two steps of [_normalize_win_path]: the slash in front and the
    drive letter in lower case. *)
Definition finish_win_path (path netloc : string) : res (string * string) :=
  let path := if negb (startswith path "/") then "/" +:+ path else path in
  let* path :=
    if RE_DRIVE_LETTER_PATH_matches path then
      let* c0 := index_at 0 path in
      let* c1 := index_at 1 path in
      Ok (String c0 (String (lower_char c1) (drop 2 path)))
    else Ok path in
  Ok (path, netloc).

(** ** Sanity checks of the library model against CPython 3.11 *)

Example urlparse_example :
  UrllibParse.urlparse "http://user:pw@Host:80/a;b?q=1#f"
  = Ok ("http", "user:pw@Host:80", "/a", "b", "q=1", "f").
Proof. reflexivity. Qed.

Example quote_example :
  UrllibParse.quote "a b/c:?#" = "a%20b/c%3A%3F%23".
Proof. reflexivity. Qed.

Example unquote_example :
  UrllibParse.unquote "a%20b/c%3A%3f%23%%41" = Ok "a b/c:?#%A".
Proof. reflexivity. Qed.

Example urlparse_params_example :
  UrllibParse.urlparse "http:;x/y;z" = Ok ("http", "", ";x/y", "z", "", "")
  /\ UrllibParse.urlparse "//h?q#f?g" = Ok ("", "h", "", "", "q", "f?g")
  /\ UrllibParse.urlparse "1a:b" = Ok ("", "", "1a:b", "", "", "")
  /\ UrllibParse.urlparse ":x" = Ok ("", "", ":x", "", "", "").
Proof. repeat split; reflexivity. Qed.

Example unquote_range_example :
  UrllibParse.unquote "%4" = Ok "%4"
  /\ UrllibParse.unquote "%c3%a9" = Ok (String "233" "")
  /\ UrllibParse.unquote "%E2%82%AC" = Unmodelled
  /\ UrllibParse.unquote "%C3" = Unmodelled.
Proof. repeat split; reflexivity. Qed.

Example scheme_match_example :
  SCHEME_match "svn+ssh" = true
  /\ SCHEME_match (String "a" (String newline "")) = true
  /\ SCHEME_match "1bad" = false
  /\ SCHEME_match "a b" = false
  /\ SCHEME_match "" = false.
Proof. repeat split; reflexivity. Qed.

Example normpath_examples :
  map PosixPath.normpath ["//a//b/"; "///a/./b/.."; "a/../.."; "/.."; ""; "//"]
  = ["//a/b"; "/a"; ".."; "/"; "."; "//"].
Proof. reflexivity. Qed.

Example ntpath_examples :
  map (fun '(a, b) => NtPath.normpath (NtPath.join a b))
    [("/a/b", "../c"); ("C:\a", "D:b"); ("C:\a", "c:b"); ("C:\a", "\b");
     ("\\srv\share\", "..\..\x"); ("\\?\UNC\srv\share\a", "../b");
     ("a/./b//c/..", "../../../.."); ("C:/", "../.."); ("", "")]
  = ["\a\c"; "D:b"; "c:\a\b"; "C:\b"; "\\srv\share\x";
     "\\?\UNC\srv\share\b"; "..\.."; "C:\"; "."].
Proof. reflexivity. Qed.

(** ** Construction *)

Lemma create_str_not_coerced scheme authority path query fragment :
  mem scheme ["http"; "https"; "file"] = false ->
  create_str scheme authority path query fragment
  = Uri_init (Some scheme) (Some authority) (Some path) (Some query)
      (Some fragment).
Proof. intros H. unfold create_str, create. rewrite H. reflexivity. Qed.

Lemma scheme_match_nonempty s : SCHEME_match s = true -> s <> "".
Proof. destruct s; simpl; congruence. Qed.

(** C3, the counterexample: with the scheme left at its default the call
    with [path="/ok"] does not succeed. *)
Lemma C3_default_scheme_rejected :
  create_str "" "host" "/ok" "" "" = Raise (ValueError "Invalid scheme")
  /\ ~ (exists u, create_str "" "host" "/ok" "" "" = Ok u).
Proof.
  split; [reflexivity|]. intros [u Hu]. vm_compute in Hu. discriminate.
Qed.

(** C3, amended: [create(authority="host", path="no-leading-slash")] raises
    (for an invalid scheme, as the default is; and for the missing slash
    under any valid scheme other than http, https and file), and
    [create(authority="host", path="/ok")] returns the Uri with these
    components once a valid scheme is given. *)
Theorem C3_authority_path_slash (s : string) :
  SCHEME_match s = true ->
  raises (create_str "" "host" "no-leading-slash" "" "") = true
  /\ (mem s ["http"; "https"; "file"] = false ->
      create_str s "host" "no-leading-slash" "" ""
      = Raise (ValueError "Paths with an authority must start with a slash '/'"))
  /\ create_str s "host" "/ok" "" "" = Ok (uri_of s "host" "/ok" "" "").
Proof.
  intros Hs. split; [reflexivity|]. split.
  - intros Hm. rewrite create_str_not_coerced by exact Hm.
    unfold Uri_init, __attrs_post_init__. simpl. rewrite Hs. reflexivity.
  - unfold create_str, create.
    destruct (mem s ["http"; "https"; "file"]); simpl;
      unfold Uri_init, __attrs_post_init__; simpl; rewrite Hs; reflexivity.
Qed.

Lemma C3_authority_path_slash_witness :
  SCHEME_match "ssh" = true
  /\ create_str "ssh" "host" "no-leading-slash" "" ""
     = Raise (ValueError "Paths with an authority must start with a slash '/'")
  /\ create_str "ssh" "host" "/ok" "" "" = Ok (uri_of "ssh" "host" "/ok" "" "").
Proof.
  split; [reflexivity|].
  destruct (C3_authority_path_slash "ssh" eq_refl) as (_ & H1 & H2).
  split; [apply H1; reflexivity | exact H2].
Defined.

(** C10: for the schemes http, https and file, [create] turns an empty path
    into ["/"], and the [fs_path] of the result is ["/"] on either platform. *)
Theorem C10_empty_path_coerced (is_win : bool) (s : string) :
  In s ["http"; "https"; "file"] ->
  create_str s "" "" "" "" = Ok (uri_of s "" "/" "" "")
  /\ fs_path is_win (uri_of s "" "/" "" "") = Some "/".
Proof.
  intros Hs. simpl in Hs.
  destruct Hs as [<- | [<- | [<- | []]]]; destruct is_win; split; reflexivity.
Qed.

Lemma C10_empty_path_coerced_witness :
  create_str "file" "" "" "" "" = Ok (uri_of "file" "" "/" "" "")
  /\ fs_path false (uri_of "file" "" "/" "" "") = Some "/".
Proof.
  apply (C10_empty_path_coerced false "file"). simpl. tauto.
Defined.

(** ** Paths *)

(** C7: [for_file] splits a UNC path into authority and path, and [fs_path]
    puts the two together again, on either platform. *)
Theorem C7_unc_round_trip (is_win : bool) :
  for_file is_win "//server/share/file.txt"
  = Ok (uri_of "file" "server" "/share/file.txt" "" "")
  /\ fs_path is_win (uri_of "file" "server" "/share/file.txt" "" "")
     = Some "//server/share/file.txt".
Proof. destruct is_win; split; reflexivity. Qed.

(** C8: the two spellings of the drive letter parse to Uris with the same
    [fs_path], whose drive letter is in lower case. *)
Theorem C8_drive_letter_casing (is_win : bool) :
  parse "file:///C:/Users/x" = Ok (uri_of "file" "" "/C:/Users/x" "" "")
  /\ parse "file:///c:/Users/x" = Ok (uri_of "file" "" "/c:/Users/x" "" "")
  /\ fs_path is_win (uri_of "file" "" "/C:/Users/x" "" "") = Some "c:/Users/x"
  /\ fs_path is_win (uri_of "file" "" "/c:/Users/x" "" "") = Some "c:/Users/x".
Proof. destruct is_win; repeat split; reflexivity. Qed.

Lemma replace_absent c r s : contains c (replace c r s) = contains c r && contains c s.
Proof.
  induction s as [|d t IH]; simpl.
  - now rewrite andb_false_r.
  - destruct (Ascii.eqb d c) eqn:E; simpl.
    + assert (Happ : forall a b, contains c (a +:+ b) = contains c a || contains c b).
      { clear. induction a as [|x a IHa]; intros b; simpl; [reflexivity|].
        rewrite IHa. now rewrite orb_assoc. }
      rewrite Happ, IH. destruct (contains c r); simpl; [reflexivity|].
      reflexivity.
    + rewrite E, IH. simpl. reflexivity.
Qed.

(** On a Windows platform the value of [fs_path] never holds a backslash. *)
Lemma fs_path_win_no_backslash (u : Uri) (p : string) :
  fs_path true u = Some p -> contains backslash p = false.
Proof.
  unfold fs_path. destruct (truthy (path u)); [|discriminate].
  intros H. injection H as <-. rewrite replace_absent. reflexivity.
Qed.

(** C2: on a Windows platform [fs_path] returns the path with its forward
    slashes, where [to_fs_path] returns it with backslashes: the last step
    of [fs_path] replaces backslashes by slashes, not slashes by the native
    separator. *)
Theorem C2_fs_path_keeps_forward_slashes :
  fs_path true (uri_of "file" "" "/a/b" "" "") = Some "/a/b"
  /\ to_fs_path true "file:///a/b" = Ok (Some "\a\b")
  /\ fs_path true (uri_of "file" "server" "/share/f" "" "")
     = Some "//server/share/f"
  /\ to_fs_path true "file://server/share/f" = Ok (Some "\\server\share\f").
Proof. repeat split; reflexivity. Qed.

(** ** The legacy functions *)

(** C4: [from_fs_path] lets the [ValueError] of [str.index] escape on a UNC
    path with no slash after the server name, on either platform. *)
Theorem C4_from_fs_path_raises (is_win : bool) :
  from_fs_path is_win (Some "//server")
  = Raise (ValueError "substring not found").
Proof. destruct is_win; reflexivity. Qed.

(** The handler of [from_fs_path] does absorb the errors of a [None]. *)
Lemma from_fs_path_None (is_win : bool) : from_fs_path is_win None = Ok None.
Proof. destruct is_win; reflexivity. Qed.

(** [to_fs_path] and [uri_scheme] let the [ValueError] of [urlsplit] escape. *)
Lemma to_fs_path_raises (is_win : bool) :
  to_fs_path is_win "//[" = Raise (ValueError "Invalid IPv6 URL")
  /\ uri_scheme "//[" = Raise (ValueError "Invalid IPv6 URL").
Proof. destruct is_win; split; reflexivity. Qed.

(** ** Component replacement *)

Lemma keys_elem k :
  k ∈ keys <-> k = "scheme" \/ k = "authority" \/ k = "path" \/ k = "query"
               \/ k = "fragment".
Proof. unfold keys. simpl. set_unfold. tauto. Qed.

(** The dict that [where] unpacks holds, under each of the five names, the
    value given in the call or else the current one. *)
Lemma where_lookup (kwargs current : gmap string (option string)) k v :
  k ∈ keys -> current !! k = Some v ->
  default (Some "")
    ((filter (fun kv : string * option string => kv.1 ∈ keys ∩ dom kwargs) kwargs
      ∪ current) !! k)
  = pick kwargs k v.
Proof.
  intros Hk Hc. unfold pick. rewrite lookup_union, map_lookup_filter.
  destruct (kwargs !! k) as [w|] eqn:E; simpl.
  - rewrite option_guard_True; [rewrite Hc; reflexivity|].
    simpl. apply elem_of_intersection. split; [exact Hk|].
    apply elem_of_dom. eauto.
  - rewrite Hc. reflexivity.
Qed.

Lemma where_spec (u : Uri) (kwargs : gmap string (option string)) :
  where_ u kwargs
  = create (pick kwargs "scheme" (scheme u))
           (pick kwargs "authority" (authority u))
           (pick kwargs "path" (path u))
           (pick kwargs "query" (query u))
           (pick kwargs "fragment" (fragment u)).
Proof.
  unfold where_, create_kw.
  set (current := list_to_map _).
  rewrite (where_lookup kwargs current "scheme" (scheme u)),
    (where_lookup kwargs current "authority" (authority u)),
    (where_lookup kwargs current "path" (path u)),
    (where_lookup kwargs current "query" (query u)),
    (where_lookup kwargs current "fragment" (fragment u));
    solve [reflexivity | apply keys_elem; tauto].
Qed.

Lemma pick_insert_other kwargs k k' v cur :
  k <> k' -> pick (<[k:=v]> kwargs) k' cur = pick kwargs k' cur.
Proof. intros H. unfold pick. rewrite lookup_insert_ne by exact H. reflexivity. Qed.

(** What [create] returns, when it returns: the components it was given,
    the path possibly with a slash put in front. *)
Lemma create_ok_fields sch a p q f u :
  create sch a p q f = Ok u ->
  scheme u = sch /\ authority u = a /\ query u = q /\ fragment u = f
  /\ (path u = p \/ exists p0, p = Some p0 /\ path u = Some ("/" +:+ p0))
  /\ __attrs_post_init__ u = Ok tt.
Proof.
  unfold create, Uri_init.
  destruct (match sch with Some s => mem s _ | None => false end).
  - destruct p as [p0|]; [|discriminate].
    destruct (negb (startswith p0 "/")); simpl;
      match goal with
      | |- context [__attrs_post_init__ ?r] =>
          destruct (__attrs_post_init__ r) as [[]| |] eqn:E; simpl; try discriminate
      end; intros H; injection H as <-; simpl; rewrite ?E; eauto 10.
  - simpl.
    match goal with
    | |- context [__attrs_post_init__ ?r] =>
        destruct (__attrs_post_init__ r) as [[]| |] eqn:E; simpl; try discriminate
    end; intros H; injection H as <-; simpl; rewrite ?E; eauto 10.
Qed.

(** C5, the counterexample: an explicit [None] for the path is stored as
    [None]; the component of the result is not the empty text. *)
Lemma C5_none_is_stored :
  where_ (uri_of "foo" "h" "/p" "q" "f") {[ "path" := None ]}
  = Ok (Build_Uri (Some "foo") (Some "h") None (Some "q") (Some "f"))
  /\ Build_Uri (Some "foo") (Some "h") None (Some "q") (Some "f")
     <> uri_of "foo" "h" "" "q" "f".
Proof. split; [vm_compute; reflexivity | discriminate]. Qed.

(** C5, amended: [where] is [create] applied to the five components, each
    being the value given in the call (a text or an explicit [None], passed
    on as it is) or else the current one; keys outside the five names change
    nothing; a returned Uri holds these components, so [None] where [None]
    was given; and an explicit [None] for the scheme is rejected. *)
Theorem C5_where_replaces (u : Uri) (kwargs : gmap string (option string)) :
  where_ u kwargs
  = create (pick kwargs "scheme" (scheme u))
           (pick kwargs "authority" (authority u))
           (pick kwargs "path" (path u))
           (pick kwargs "query" (query u))
           (pick kwargs "fragment" (fragment u))
  /\ (forall k v, k ∉ keys -> where_ u (<[k:=v]> kwargs) = where_ u kwargs)
  /\ (forall u', where_ u kwargs = Ok u' ->
        scheme u' = pick kwargs "scheme" (scheme u)
        /\ authority u' = pick kwargs "authority" (authority u)
        /\ query u' = pick kwargs "query" (query u)
        /\ fragment u' = pick kwargs "fragment" (fragment u)
        /\ (path u' = pick kwargs "path" (path u)
            \/ exists p0, pick kwargs "path" (path u) = Some p0
                          /\ path u' = Some ("/" +:+ p0))
        /\ __attrs_post_init__ u' = Ok tt)
  /\ (kwargs !! "scheme" = Some None ->
      where_ u kwargs = Raise (ValueError "URIs must have a scheme")).
Proof.
  split; [apply where_spec|]. split; [|split].
  - intros k v Hk. rewrite !where_spec.
    assert (Hne : forall k', k' ∈ keys -> k <> k') by (intros k' Hk' ->; auto).
    rewrite !pick_insert_other by (apply Hne, keys_elem; tauto). reflexivity.
  - intros u' H. rewrite where_spec in H. apply create_ok_fields in H. tauto.
  - intros H. rewrite where_spec. unfold pick at 1. rewrite H.
    unfold create, Uri_init, __attrs_post_init__. simpl. reflexivity.
Qed.

Lemma C5_where_replaces_witness :
  where_ (uri_of "foo" "h" "/p" "q" "f")
    {[ "query" := Some "zz"; "fragment" := None; "colour" := Some "red" ]}
  = create (Some "foo") (Some "h") (Some "/p") (Some "zz") None
  /\ where_ (uri_of "foo" "h" "/p" "q" "f") {[ "scheme" := None ]}
     = Raise (ValueError "URIs must have a scheme").
Proof.
  split.
  - exact (proj1 (C5_where_replaces (uri_of "foo" "h" "/p" "q" "f")
        {[ "query" := Some "zz"; "fragment" := None; "colour" := Some "red" ]})).
  - apply (C5_where_replaces (uri_of "foo" "h" "/p" "q" "f")
             {[ "scheme" := None ]}).
    reflexivity.
Defined.

(** ** Path join *)

(** C6: [join] normalizes with [os.path], which on a Windows platform is
    [ntpath]: its [normpath] turns every slash into a backslash, so that
    ["/a/b"] joined with ["../c"] gives the path ["\a\c"], which [create]
    stores with a slash in front under the scheme file, stores as it is
    under a scheme of its own without an authority, and rejects with an
    authority.  On a POSIX platform the same call gives ["/a/c"]. *)
Theorem C6_join_on_windows :
  join (os_path := ntpath) (uri_of "file" "" "/a/b" "" "") "../c"
  = Ok (uri_of "file" "" "/\a\c" "" "")
  /\ join (os_path := ntpath) (uri_of "foo" "" "/a/b" "" "") "../c"
     = Ok (uri_of "foo" "" "\a\c" "" "")
  /\ join (os_path := ntpath) (uri_of "foo" "h" "/a/b" "" "") "../c"
     = Raise (ValueError "Paths with an authority must start with a slash '/'")
  /\ join (os_path := posixpath) (uri_of "file" "" "/a/b" "" "") "../c"
     = Ok (uri_of "file" "" "/a/c" "" "").
Proof. repeat split; vm_compute; reflexivity. Qed.

(** * The round trip through [as_string] and [parse] *)

#[local] Arguments String.append _ _ : simpl nomatch.

(** ** Texts: append, membership, search and split *)

Lemma sapp_nil_r (s : string) : s +:+ "" = s.
Proof. induction s as [|c r IH]; simpl; [reflexivity | now rewrite IH]. Qed.

Lemma sapp_assoc (a b c : string) : (a +:+ b) +:+ c = a +:+ (b +:+ c).
Proof. induction a as [|x a IH]; simpl; [reflexivity | now rewrite IH]. Qed.

Lemma contains_app c (a b : string) :
  contains c (a +:+ b) = contains c a || contains c b.
Proof.
  induction a as [|x a IH]; simpl; [reflexivity|].
  now rewrite IH, orb_assoc.
Qed.

Lemma sforallb_app P (a b : string) :
  forallb P (a +:+ b) = forallb P a && forallb P b.
Proof.
  induction a as [|x a IH]; simpl; [reflexivity|].
  now rewrite IH, andb_assoc.
Qed.

Lemma sforallb_impl (P Q : ascii -> bool) (s : string) :
  (forall c, P c = true -> Q c = true) ->
  forallb P s = true -> forallb Q s = true.
Proof.
  intros HPQ. induction s as [|x s IH]; simpl; [reflexivity|].
  intros H. apply andb_true_iff in H as [H1 H2].
  now rewrite (HPQ _ H1), IH.
Qed.

Lemma forallb_absent P c (s : string) :
  forallb P s = true -> P c = false -> contains c s = false.
Proof.
  intros Hs Hc. induction s as [|x s IH]; simpl in *; [reflexivity|].
  apply andb_true_iff in Hs as [H1 H2]. rewrite (IH H2), orb_false_r.
  destruct (Ascii.eqb_spec x c) as [->|]; [congruence | reflexivity].
Qed.

Lemma absent_forallb c (x : string) :
  contains c x = false -> forallb (fun d => negb (Ascii.eqb d c)) x = true.
Proof.
  induction x as [|d r IH]; simpl; [reflexivity|].
  intros H. apply orb_false_iff in H as [H1 H2]. now rewrite H1, IH.
Qed.

Lemma replace_none c r (s : string) :
  contains c s = false -> replace c r s = s.
Proof.
  induction s as [|x s IH]; simpl; [reflexivity|].
  intros H. apply orb_false_iff in H as [H1 H2]. now rewrite H1, IH.
Qed.

Lemma sfind_app c (a r : string) :
  contains c a = false -> find c (a +:+ String c r) = Some (String.length a).
Proof.
  induction a as [|x a IH]; simpl.
  - now rewrite Ascii.eqb_refl.
  - intros H. apply orb_false_iff in H as [H1 H2]. now rewrite H1, IH.
Qed.

Lemma find_absent c (s : string) : contains c s = false -> find c s = None.
Proof.
  induction s as [|x s IH]; simpl; [reflexivity|].
  intros H. apply orb_false_iff in H as [H1 H2]. now rewrite H1, IH.
Qed.

Lemma find_from_app c (a r : string) :
  contains c a = false ->
  find_from c (String.length a) (a +:+ r) = option_map (plus (String.length a)) (find c r)
  /\ find_from c 0 (a +:+ r) = option_map (plus (String.length a)) (find c r).
Proof.
  induction a as [|x a IH]; simpl.
  - intros _. destruct r; simpl; split; try reflexivity;
      destruct (Ascii.eqb _ _); try reflexivity;
      destruct (find c r); reflexivity.
  - intros H. apply orb_false_iff in H as [H1 H2]. rewrite H1.
    destruct (IH H2) as [IH1 IH2]. rewrite IH1. simpl in IH2.
    assert (E : find c (a +:+ r) = option_map (plus (String.length a)) (find c r)).
    { destruct (a +:+ r); exact IH2. }
    rewrite E. destruct (find c r); simpl; split; reflexivity.
Qed.

Lemma stake_app (a b : string) : take (String.length a) (a +:+ b) = a.
Proof.
  induction a as [|x a IH]; simpl; [destruct b; reflexivity | now rewrite IH].
Qed.

Lemma sdrop_app (a b : string) : drop (String.length a) (a +:+ b) = b.
Proof. induction a as [|x a IH]; simpl; [destruct b; reflexivity | exact IH]. Qed.

Lemma split1_app c (a b : string) :
  contains c a = false -> split1 c (a +:+ String c b) = (a, b).
Proof.
  induction a as [|x a IH]; simpl.
  - now rewrite Ascii.eqb_refl.
  - intros H. apply orb_false_iff in H as [H1 H2]. now rewrite H1, IH.
Qed.

Lemma split_absent c (s : string) : contains c s = false -> split c s = [s].
Proof.
  induction s as [|x s IH]; simpl; [reflexivity|].
  intros H. apply orb_false_iff in H as [H1 H2]. now rewrite H1, IH.
Qed.

Lemma split_nonempty c (s : string) : split c s <> [].
Proof.
  induction s as [|x s IH]; simpl; [discriminate|].
  destruct (Ascii.eqb x c); [discriminate|].
  destruct (split c s); [contradiction | discriminate].
Qed.

Lemma join_split c (s : string) : PyStr.join (String c "") (split c s) = s.
Proof.
  unfold PyStr.join. induction s as [|x s IH]; simpl; [reflexivity|].
  destruct (Ascii.eqb_spec x c) as [->|Hne].
  - pose proof (split_nonempty c s) as Hn.
    destruct (split c s) as [|y ys]; [contradiction|].
    simpl in *. now rewrite IH.
  - pose proof (split_nonempty c s) as Hn.
    destruct (split c s) as [|y ys]; [contradiction|].
    destruct ys; simpl in *; now rewrite <- IH.
Qed.

Lemma lower_fixed (s : string) :
  forallb (fun c => Ascii.eqb (lower_char c) c) s = true -> lower s = s.
Proof.
  induction s as [|x s IH]; simpl; [reflexivity|].
  intros H. apply andb_true_iff in H as [H1 H2].
  apply Ascii.eqb_eq in H1. now rewrite H1, IH.
Qed.

(** ** Facts about single characters, checked on all 256 of them *)

Lemma every_char_spec (P : ascii -> bool) :
  every_char P = true -> forall c, P c = true.
Proof.
  unfold every_char. rewrite List.forallb_forall. intros H c. apply H.
  rewrite <- (ascii_nat_embedding c). apply in_map, in_seq.
  pose proof (nat_ascii_bounded c). lia.
Qed.

Ltac by_chars :=
  match goal with
  | |- forall c : ascii, _ = true => apply every_char_spec; vm_compute; reflexivity
  end.

Lemma quote_from_bytes_app safe (a b : string) :
  UrllibParse.quote_from_bytes safe (a +:+ b)
  = UrllibParse.quote_from_bytes safe a +:+ UrllibParse.quote_from_bytes safe b.
Proof.
  induction a as [|x a IH]; simpl; [reflexivity|].
  now rewrite IH, sapp_assoc.
Qed.

Lemma quote_charwise (x : string) : UrllibParse.quote x = charwise quote_char x.
Proof.
  unfold UrllibParse.quote. induction x as [|c r IH]; simpl; [reflexivity|].
  now rewrite quote_from_bytes_app, IH.
Qed.

Lemma sreplace_app c r (a b : string) :
  replace c r (a +:+ b) = replace c r a +:+ replace c r b.
Proof.
  induction a as [|x a IH]; simpl; [reflexivity|].
  destruct (Ascii.eqb x c); simpl; now rewrite IH, ?sapp_assoc.
Qed.

Lemma replace_chars_charwise (x : string) :
  _replace_chars x = charwise replace_char x.
Proof.
  unfold _replace_chars. induction x as [|c r IH]; [reflexivity|].
  change (charwise replace_char (String c r))
    with (replace_char c +:+ charwise replace_char r).
  rewrite <- IH. unfold replace_char.
  destruct (Ascii.eqb c "#") eqn:H1.
  - apply Ascii.eqb_eq in H1. subst c.
    change (replace "#" "%23" (String "#" r))
      with ("%23" +:+ replace "#" "%23" r).
    now rewrite sreplace_app.
  - simpl. rewrite H1. simpl. destruct (Ascii.eqb c "?"); reflexivity.
Qed.

Lemma charwise_app f (a b : string) :
  charwise f (a +:+ b) = charwise f a +:+ charwise f b.
Proof.
  induction a as [|x a IH]; simpl; [reflexivity|]. now rewrite IH, sapp_assoc.
Qed.

Lemma charwise_forallb (P Q : ascii -> bool) f (x : string) :
  (forall c, implb (P c) (forallb Q (f c)) = true) ->
  forallb P x = true -> forallb Q (charwise f x) = true.
Proof.
  intros Hf. induction x as [|c r IH]; simpl; [reflexivity|].
  intros H. apply andb_true_iff in H as [H1 H2].
  rewrite sforallb_app, (IH H2), andb_true_r.
  specialize (Hf c). now rewrite H1 in Hf.
Qed.

Lemma sforallb_true (x : string) : forallb (fun _ => true) x = true.
Proof. induction x; simpl; auto. Qed.

Lemma charwise_empty f (x : string) :
  (forall c, negb (f c =? "") = true) ->
  (charwise f x =? "") = (x =? "").
Proof.
  intros Hf. destruct x as [|c r]; simpl; [reflexivity|].
  specialize (Hf c). destruct (f c); simpl in *; [discriminate | reflexivity].
Qed.

Lemma charwise_head f (x : string) :
  keeps_slash f -> head_is "/" (charwise f x) = head_is "/" x.
Proof.
  intros Hf. destruct x as [|c r]; simpl; [reflexivity|].
  specialize (Hf c). destruct (Ascii.eqb c "/").
  - apply String.eqb_eq in Hf. rewrite Hf. reflexivity.
  - destruct (f c); simpl in *; [discriminate|].
    now apply negb_true_iff in Hf.
Qed.

Lemma charwise_slash f (r : string) :
  keeps_slash f -> charwise f (String "/" r) = String "/" (charwise f r).
Proof.
  intros Hf. simpl. specialize (Hf "/"%char). simpl in Hf.
  apply String.eqb_eq in Hf. now rewrite Hf.
Qed.

Lemma quote_keeps_slash : keeps_slash quote_char.
Proof.
  intros c. revert c. apply every_char_spec. vm_compute. reflexivity.
Qed.


(** ** Decoding: [unquote] undoes the two encoders *)

Lemma concat_empty_sep (x : string) (xs : list string) :
  String.concat "" (x :: xs) = x +:+ String.concat "" xs.
Proof. destruct xs; simpl; [now rewrite sapp_nil_r | reflexivity]. Qed.

Lemma unquote_bytes_other c (r : bytes) :
  Ascii.eqb c "%" = false ->
  unquote_bytes (String c r) = String c (unquote_bytes r).
Proof.
  intros Hc. unfold unquote_bytes. simpl. rewrite Hc.
  pose proof (split_nonempty "%" r).
  destruct (split "%" r) as [|x xs]; [contradiction | reflexivity].
Qed.

Lemma unquote_bytes_escape h1 h2 b (r : bytes) :
  hextobyte (String h1 (String h2 "")) = Some b ->
  unquote_bytes (String "%" (String h1 (String h2 r)))
  = String b (unquote_bytes r).
Proof.
  intros Hb.
  assert (Hhex : forall c, implb (match hex_val c with Some _ => true | None => false end)
                             (negb (Ascii.eqb c "%")) = true) by by_chars.
  assert (H1 : Ascii.eqb h1 "%" = false).
  { pose proof (Hhex h1) as H. unfold hextobyte in Hb.
    destruct (hex_val h1); [|discriminate]. now apply negb_true_iff in H. }
  assert (H2 : Ascii.eqb h2 "%" = false).
  { pose proof (Hhex h2) as H. unfold hextobyte in Hb.
    destruct (hex_val h1); [|discriminate].
    destruct (hex_val h2); [|discriminate]. now apply negb_true_iff in H. }
  unfold unquote_bytes. simpl. rewrite H1, H2.
  pose proof (split_nonempty "%" r).
  destruct (split "%" r) as [|x xs]; [contradiction|].
  rewrite map_cons, concat_empty_sep. unfold unquote_item at 1.
  change (take 2 (String h1 (String h2 x))) with (String h1 (String h2 "")).
  rewrite Hb. reflexivity.
Qed.

Lemma unquote_bytes_quoter b (rest : bytes) :
  unquote_bytes (quoter "/" b +:+ rest) = String b (unquote_bytes rest).
Proof.
  assert (Hsafe : forall b, implb (always_safe b || contains b "/")
                              (negb (Ascii.eqb b "%")) = true) by by_chars.
  assert (Hpct : forall b, match hextobyte (drop 1 (pct b)) with
                           | Some b' => Ascii.eqb b' b
                           | None => false
                           end = true) by by_chars.
  unfold quoter. destruct (always_safe b || contains b "/") eqn:E.
  - specialize (Hsafe b). rewrite E in Hsafe. apply negb_true_iff in Hsafe.
    change (String b "" +:+ rest) with (String b rest).
    now apply unquote_bytes_other.
  - specialize (Hpct b). unfold pct in Hpct |- *.
    set (h1 := hex_digit (code b / 16)) in *.
    set (h2 := hex_digit (code b mod 16)) in *.
    change (drop 1 (String "%" (String h1 (String h2 ""))))
      with (String h1 (String h2 "")) in Hpct.
    change (String "%" (String h1 (String h2 "")) +:+ rest)
      with (String "%" (String h1 (String h2 rest))).
    destruct (hextobyte (String h1 (String h2 ""))) as [b'|] eqn:Hb;
      [|discriminate].
    apply Ascii.eqb_eq in Hpct. subst b'. now apply unquote_bytes_escape.
Qed.

Lemma unquote_bytes_quote (bs : bytes) :
  unquote_bytes (quote_from_bytes "/" bs) = bs.
Proof.
  induction bs as [|b r IH]; [reflexivity|].
  simpl. now rewrite unquote_bytes_quoter, IH.
Qed.

Lemma utf8_encode_ascii (s : string) :
  forallb is_ascii s = true -> utf8_encode s = s.
Proof.
  induction s as [|c r IH]; simpl; [reflexivity|].
  intros H. apply andb_true_iff in H as [H1 H2].
  unfold utf8_encode_char. now rewrite H1, IH.
Qed.

Lemma utf8_decode_ascii (s : string) :
  forallb is_ascii s = true -> utf8_decode s = Some s.
Proof.
  induction s as [|c r IH]; simpl; [reflexivity|].
  intros H. apply andb_true_iff in H as [H1 H2]. now rewrite H1, IH.
Qed.

Lemma quote_from_bytes_ascii (bs : bytes) :
  forallb is_ascii (quote_from_bytes "/" bs) = true.
Proof.
  assert (H : forall b, forallb is_ascii (quoter "/" b) = true) by by_chars.
  induction bs as [|b r IH]; simpl; [reflexivity|].
  now rewrite sforallb_app, H, IH.
Qed.

Lemma utf8_decode_encode_char c (bs : bytes) :
  utf8_decode (utf8_encode_char c +:+ bs) = option_map (String c) (utf8_decode bs).
Proof.
  assert (H : forall c,
    is_ascii c
    || (let b1 := ascii_of_N (192 + code c / 64) in
        let b2 := ascii_of_N (128 + code c mod 64) in
        negb (is_ascii b1) && in_range 194 195 b1 && in_range 128 191 b2
        && Ascii.eqb (ascii_of_N ((code b1 - 192) * 64 + (code b2 - 128))) c)
    = true) by by_chars.
  specialize (H c). unfold utf8_encode_char.
  destruct (is_ascii c) eqn:E; simpl in *.
  - now rewrite E.
  - repeat (apply andb_true_iff in H as [H ?]).
    apply negb_true_iff in H. rewrite H.
    match goal with H : in_range 194 195 _ = true |- _ => rewrite H end.
    match goal with H : in_range 128 191 _ = true |- _ => rewrite H end.
    match goal with H : Ascii.eqb _ c = true |- _ =>
      apply Ascii.eqb_eq in H; rewrite H end.
    reflexivity.
Qed.

Lemma utf8_decode_encode (x : string) : utf8_decode (utf8_encode x) = Some x.
Proof.
  induction x as [|c r IH]; simpl; [reflexivity|].
  now rewrite utf8_decode_encode_char, IH.
Qed.

Lemma unquote_to_bytes_quote (x : string) :
  unquote_to_bytes (quote x) = utf8_encode x.
Proof.
  unfold unquote_to_bytes, quote.
  rewrite utf8_encode_ascii by apply quote_from_bytes_ascii.
  apply unquote_bytes_quote.
Qed.

(** *** The runs of [unquote] *)

Lemma asciire_split_run (t r : string) :
  forallb is_ascii t = true -> t <> "" -> starts_non_ascii r = true ->
  asciire_split (t +:+ r)
  = ("", (t, fst (asciire_split r)) :: snd (asciire_split r)).
Proof.
  intros Ht Hne Hr. induction t as [|a t IH]; [contradiction|].
  simpl in Ht. apply andb_true_iff in Ht as [Ha Ht].
  destruct t as [|a' t'].
  - simpl. rewrite Ha. destruct r as [|c r']; [reflexivity|].
    simpl in *. apply negb_true_iff in Hr. rewrite Hr.
    destruct (asciire_split r') as [h l]. reflexivity.
  - change (String a (String a' t') +:+ r) with (String a (String a' t' +:+ r)).
    cbn [asciire_split]. fold asciire_split.
    change (asciire_split (String a' (t' +:+ r)))
      with (asciire_split (String a' t' +:+ r)).
    rewrite IH by (assumption || discriminate). rewrite Ha. reflexivity.
Qed.

Lemma unquote_parts_nil : unquote_parts "" = Ok "".
Proof. reflexivity. Qed.

Lemma unquote_parts_non_ascii c (r : string) :
  is_ascii c = false ->
  unquote_parts (String c r)
  = (let* y := unquote_parts r in Ok (String c y)).
Proof.
  intros Hc. unfold unquote_parts. simpl. rewrite Hc.
  destruct (asciire_split r) as [h l].
  destruct (unquote_runs l); reflexivity.
Qed.

Lemma unquote_parts_run (t r : string) :
  forallb is_ascii t = true -> t <> "" -> starts_non_ascii r = true ->
  unquote_parts (t +:+ r)
  = match utf8_decode (unquote_to_bytes t) with
    | None => Unmodelled
    | Some d => let* y := unquote_parts r in Ok (d +:+ y)
    end.
Proof.
  intros Ht Hne Hr. unfold unquote_parts.
  rewrite asciire_split_run by assumption.
  destruct (asciire_split r) as [h l]. simpl.
  destruct (utf8_decode (unquote_to_bytes t)) as [d|]; [|reflexivity].
  destruct (unquote_runs l); reflexivity.
Qed.

Lemma charwise_no_percent f (x : string) :
  (forall c, contains "%" (f c) || (f c =? String c "") = true) ->
  contains "%" (charwise f x) = false -> charwise f x = x.
Proof.
  intros Hf. induction x as [|c r IH]; simpl; [reflexivity|].
  rewrite contains_app. intros H. apply orb_false_iff in H as [H1 H2].
  specialize (Hf c). rewrite H1 in Hf. apply String.eqb_eq in Hf.
  now rewrite Hf, IH.
Qed.

(** [unquote] gets back any text from what [quote] makes of it. *)
Lemma unquote_quote (x : string) : unquote (quote x) = Ok x.
Proof.
  unfold unquote. destruct (contains "%" (quote x)) eqn:E; simpl.
  - assert (Hne : quote x <> "") by (intros H; rewrite H in E; discriminate).
    rewrite <- (sapp_nil_r (quote x)).
    rewrite unquote_parts_run; try assumption; try reflexivity.
    + rewrite unquote_to_bytes_quote, utf8_decode_encode. simpl.
      now rewrite sapp_nil_r.
    + apply quote_from_bytes_ascii.
  - f_equal. rewrite quote_charwise in *. apply charwise_no_percent; [|exact E].
    by_chars.
Qed.



Lemma replace_char_ascii (t : string) :
  forallb is_ascii t = true -> forallb is_ascii (charwise replace_char t) = true.
Proof. apply charwise_forallb. by_chars. Qed.

Lemma replace_char_nonempty : forall c, negb (replace_char c =? "") = true.
Proof. by_chars. Qed.

Lemma quote_char_nonempty : forall c, negb (quote_char c =? "") = true.
Proof. by_chars. Qed.



Lemma unquote_plain (x : string) : contains "%" x = false -> unquote x = Ok x.
Proof. intros H. unfold unquote. now rewrite H. Qed.

(** ** The steps of [urlsplit] on the text [as_string] builds *)

Lemma slength_app (a b : string) :
  String.length (a +:+ b) = String.length a + String.length b.
Proof. induction a as [|x a IH]; simpl; [reflexivity | now rewrite IH]. Qed.

Lemma sanitize_clean c0 (r : string) :
  c0_control_or_space c0 = false ->
  contains tab (String c0 r) = false -> contains cr (String c0 r) = false ->
  contains lf (String c0 r) = false ->
  sanitize (String c0 r) = String c0 r.
Proof.
  intros H0 Ht Hc Hl. unfold sanitize. cbv zeta. simpl lstrip. rewrite H0.
  rewrite (replace_none tab "" _ Ht), (replace_none cr "" _ Hc).
  apply (replace_none lf "" _ Hl).
Qed.

Lemma canonical_scheme_chars (s : string) :
  canonical_scheme s = true ->
  exists c0 r, s = String c0 r /\ is_alpha c0 = true
               /\ forallb (fun c => scheme_char c && negb (is_upper c)) s = true.
Proof.
  unfold canonical_scheme. intros H. apply andb_true_iff in H as [H1 H2].
  destruct s as [|c0 r]; [discriminate|]. exists c0, r.
  simpl in H1. apply andb_true_iff in H1 as [H1 _]. auto.
Qed.

Lemma split_scheme_canonical (s rest : string) :
  canonical_scheme s = true ->
  split_scheme (s +:+ String ":" rest) = (s, rest).
Proof.
  intros Hs. destruct (canonical_scheme_chars s Hs) as (c0 & r & -> & Ha & Hall).
  assert (Hcolon : contains ":" (String c0 r) = false)
    by (apply (forallb_absent _ _ _ Hall); reflexivity).
  assert (F1 : forall c, implb (is_alpha c) (is_ascii c) = true) by by_chars.
  assert (F2 : forall c, implb (scheme_char c && negb (is_upper c))
                           (scheme_chars c) = true) by by_chars.
  assert (F3 : forall c, implb (scheme_char c && negb (is_upper c))
                           (Ascii.eqb (lower_char c) c) = true) by by_chars.
  assert (Htake : take (S (String.length r)) (String c0 r +:+ String ":" rest)
                  = String c0 r) by apply (stake_app (String c0 r)).
  assert (Hdrop : drop (S (String.length r) + 1) (String c0 r +:+ String ":" rest)
                  = rest).
  { replace (String c0 r +:+ String ":" rest)
      with ((String c0 r +:+ ":") +:+ rest) by now rewrite sapp_assoc.
    replace (S (String.length r) + 1) with (String.length (String c0 r +:+ ":"))
      by (rewrite slength_app; reflexivity).
    apply sdrop_app. }
  unfold split_scheme. rewrite sfind_app by exact Hcolon.
  change (String.length (String c0 r)) with (S (String.length r)). cbv iota beta.
  rewrite Htake, Hdrop.
  change (String c0 r +:+ String ":" rest)
    with (String c0 (r +:+ String ":" rest)). cbv iota beta.
  specialize (F1 c0). rewrite Ha in F1. simpl in F1. rewrite F1, Ha.
  assert (Hsc : forallb scheme_chars (String c0 r) = true).
  { revert Hall. apply sforallb_impl. intros c Hc.
    specialize (F2 c). now rewrite Hc in F2. }
  assert (Hlow : lower (String c0 r) = String c0 r).
  { apply lower_fixed. revert Hall. apply sforallb_impl. intros c Hc.
    specialize (F3 c). now rewrite Hc in F3. }
  now rewrite Hsc, Hlow.
Qed.

Lemma min_delim_start (a rest : string) :
  delim_start rest = true ->
  let n := String.length a in
  let shift := option_map (fun i => S (S (n + i))) in
  min_delim (min_delim (min_delim (S (S (n + String.length rest)))
                                  (shift (find "/" rest)))
                       (shift (find "?" rest)))
            (shift (find "#" rest))
  = S (S n).
Proof.
  intros Hr n shift. subst shift. generalize n. clear n. intros n.
  destruct rest as [|d r].
  - simpl. lia.
  - unfold delim_start in Hr. cbn [contains] in Hr.
    rewrite !(Ascii.eqb_sym _ d) in Hr. cbn [find String.length].
    destruct (Ascii.eqb d "/") eqn:E1; destruct (Ascii.eqb d "?") eqn:E2;
      destruct (Ascii.eqb d "#") eqn:E3; try discriminate Hr;
      destruct (find "/" r), (find "?" r), (find "#" r);
      unfold min_delim, option_map; lia.
Qed.

Lemma split_netloc_plain (a rest : string) :
  forallb (fun c => negb (contains c "/?#[]")) a = true ->
  delim_start rest = true ->
  split_netloc ("//" +:+ a +:+ rest) = Ok (a, rest).
Proof.
  intros Ha Hr. unfold split_netloc.
  change (take 2 ("//" +:+ a +:+ rest)) with "//". simpl (_ =? _)%string.
  cbv iota. unfold splitnetloc.
  assert (Hf : forall c, contains c "/?#" = true ->
            find_from c 2 ("//" +:+ a +:+ rest)
            = option_map (fun i => S (S (String.length a + i))) (find c rest)).
  { intros c Hc.
    assert (Hca : contains c a = false).
    { apply (forallb_absent _ _ _ Ha). apply negb_false_iff.
      cbn [contains] in Hc |- *. rewrite !orb_false_r in Hc.
      destruct (Ascii.eqb "/" c); [reflexivity|].
      destruct (Ascii.eqb "?" c); [reflexivity|].
      destruct (Ascii.eqb "#" c); [reflexivity | discriminate]. }
    change (find_from c 2 ("//" +:+ a +:+ rest))
      with (option_map S (option_map S (find_from c 0 (a +:+ rest)))).
    rewrite (proj2 (find_from_app c a rest Hca)).
    destruct (find c rest); reflexivity. }
  rewrite !Hf by reflexivity.
  change (String.length ("//" +:+ a +:+ rest))
    with (S (S (String.length (a +:+ rest)))).
  rewrite slength_app, (min_delim_start a rest Hr).
  unfold slice.
  change (drop 2 ("//" +:+ a +:+ rest)) with (a +:+ rest).
  change (drop (S (S (String.length a))) ("//" +:+ a +:+ rest))
    with (drop (String.length a) (a +:+ rest)).
  replace (S (S (String.length a)) - 2) with (String.length a) by lia.
  rewrite stake_app, sdrop_app.
  rewrite (forallb_absent _ "[" _ Ha), (forallb_absent _ "]" _ Ha) by reflexivity.
  reflexivity.
Qed.

Lemma split_netloc_absent (url : string) :
  (take 2 url =? "//") = false -> split_netloc url = Ok ("", url).
Proof. intros H. unfold split_netloc. now rewrite H. Qed.

Lemma split_fragment_query_parts (p q f : string) :
  contains "#" p = false -> contains "?" p = false -> contains "#" q = false ->
  split_fragment_query (p +:+ with_mark "?" q +:+ with_mark "#" f) = (p, q, f).
Proof.
  intros Hp1 Hp2 Hq. unfold split_fragment_query, with_mark.
  destruct (String.eqb_spec f "") as [->|Hf]; simpl negb; cbv iota.
  - rewrite sapp_nil_r.
    destruct (String.eqb_spec q "") as [->|Hq']; simpl negb; cbv iota.
    + rewrite sapp_nil_r, Hp1, Hp2. reflexivity.
    + rewrite contains_app, Hp1. simpl contains. rewrite Hq. simpl.
      rewrite contains_app. simpl contains. rewrite orb_true_r.
      now rewrite split1_app.
  - rewrite <- sapp_assoc.
    assert (Hpq : contains "#" (p +:+ (if negb (q =? "") then String "?" q else "")) = false).
    { rewrite contains_app, Hp1.
      destruct (q =? ""); simpl; [reflexivity | exact Hq]. }
    rewrite contains_app. simpl contains. rewrite orb_true_r.
    rewrite split1_app by exact Hpq.
    destruct (String.eqb_spec q "") as [->|Hq']; simpl negb; cbv iota.
    + rewrite sapp_nil_r, Hp2. reflexivity.
    + rewrite contains_app. simpl contains. rewrite orb_true_r.
      now rewrite split1_app.
Qed.

(** ** What [as_string] builds *)


(** ** Reading back what [as_string] builds *)

Lemma sprefix_cons c d (p s : string) :
  String.prefix (String c p) (String d s) = Ascii.eqb c d && String.prefix p s.
Proof.
  change (String.prefix (String c p) (String d s))
    with (if ascii_dec c d then String.prefix p s else false).
  destruct (ascii_dec c d) as [->|H].
  - now rewrite Ascii.eqb_refl.
  - apply Ascii.eqb_neq in H. now rewrite H.
Qed.

Lemma startswith_slash (x : string) : startswith x "/" = head_is "/" x.
Proof.
  destruct x as [|c x]; [reflexivity|]. unfold startswith.
  rewrite sprefix_cons.
  replace (String.prefix "" x) with true by now destruct x.
  rewrite andb_true_r. apply Ascii.eqb_sym.
Qed.

(** What the validation guarantees of a Uri with text components. *)
Lemma post_init_facts (s a p q f : string) :
  __attrs_post_init__ (uri_of s a p q f) = Ok tt ->
  SCHEME_match s = true
  /\ (a <> "" -> p <> "" -> head_is "/" p = true)
  /\ (a = "" -> startswith p "//" = false).
Proof.
  unfold __attrs_post_init__, uri_of.
  cbn [scheme authority path query fragment truthy fmt].
  rewrite startswith_slash.
  destruct (SCHEME_match s); simpl; [|discriminate].
  destruct (String.eqb_spec a "") as [->|Ha]; simpl.
  - destruct (String.eqb_spec p "") as [->|Hp]; simpl.
    + intros _. repeat split; congruence.
    + destruct (startswith p "//"); simpl; [discriminate|].
      intros _. repeat split; congruence.
  - destruct (String.eqb_spec p "") as [->|Hp]; simpl.
    + intros _. repeat split; congruence.
    + destruct (head_is "/" p); simpl; [|discriminate].
      rewrite andb_false_r. intros _. repeat split; congruence.
Qed.

(** A Uri that [create] returns is one that [create] returns for its own
    components. *)
Lemma create_str_fixed (s a p0 q f : string) (u : Uri) :
  create_str s a p0 q f = Ok u ->
  exists p, u = uri_of s a p q f
            /\ create_str s a p q f = Ok u
            /\ __attrs_post_init__ u = Ok tt
            /\ (mem s coerced = true -> head_is "/" p = true).
Proof.
  unfold create_str, create, coerced.
  destruct (mem s ["http"; "https"; "file"]) eqn:Em.
  - destruct (startswith p0 "/") eqn:E0; simpl.
    + unfold Uri_init.
      destruct (__attrs_post_init__ _) as [[]| |] eqn:Ev; simpl; try discriminate.
      intros H. injection H as <-. exists p0. rewrite E0. simpl.
      unfold Uri_init. rewrite Ev. simpl.
      rewrite <- startswith_slash. auto.
    + unfold Uri_init.
      destruct (__attrs_post_init__ _) as [[]| |] eqn:Ev; simpl; try discriminate.
      intros H. injection H as <-. exists ("/" +:+ p0).
      replace (startswith ("/" +:+ p0) "/") with true
        by (now rewrite startswith_slash).
      simpl. unfold Uri_init. rewrite Ev. simpl. auto.
  - simpl. unfold Uri_init.
    destruct (__attrs_post_init__ _) as [[]| |] eqn:Ev; simpl; try discriminate.
    intros H. injection H as <-. exists p0. rewrite Ev. simpl.
    repeat split; auto. discriminate.
Qed.

Lemma with_mark_forallb P c (x : string) :
  P c = true -> forallb P x = true -> forallb P (with_mark c x) = true.
Proof.
  intros Hc Hx. unfold with_mark. destruct (negb (x =? "")); [|reflexivity].
  simpl. now rewrite Hc, Hx.
Qed.

Lemma delim_start_parts (p q f : string) :
  p = "" \/ head_is "/" p = true ->
  delim_start (p +:+ with_mark "?" q +:+ with_mark "#" f) = true.
Proof.
  intros [->|Hp].
  - simpl. unfold with_mark.
    destruct (negb (q =? "")); [reflexivity|]. simpl.
    destruct (negb (f =? "")); reflexivity.
  - destruct p as [|c p]; [discriminate|]. simpl in *.
    apply Ascii.eqb_eq in Hp. now subst c.
Qed.

Lemma urlsplit_built (s a p q f : string) :
  canonical_scheme s = true -> forallb netloc_text_char a = true ->
  forallb part_char p = true -> forallb part_char q = true ->
  forallb part_char f = true ->
  (separator s a = "//" -> p = "" \/ head_is "/" p = true) ->
  (separator s a = "" ->
   a = "" /\ (take 2 (p +:+ with_mark "?" q +:+ with_mark "#" f) =? "//") = false) ->
  urlsplit (s +:+ String ":" (separator s a +:+ a +:+ p +:+ with_mark "?" q
                              +:+ with_mark "#" f))
  = Ok (s, a, p, q, f).
Proof.
  intros Hs Hall Hp Hq Hf Hsep1 Hsep2.
  destruct (canonical_scheme_chars s Hs) as (c0 & r & Es & Hal & Hsch).
  set (rest := separator s a +:+ a +:+ p +:+ with_mark "?" q +:+ with_mark "#" f).
  assert (Fpc : forall x, forallb part_char x = true -> forallb clean_char x = true).
  { intros x. apply sforallb_impl.
    assert (F : forall c, implb (part_char c) (clean_char c) = true) by by_chars.
    intros c Hc. specialize (F c). now rewrite Hc in F. }
  assert (Hclean : forallb clean_char (s +:+ String ":" rest) = true).
  { rewrite sforallb_app. apply andb_true_iff. split.
    - revert Hsch. apply sforallb_impl.
      assert (F : forall c, implb (scheme_char c && negb (is_upper c))
                              (clean_char c) = true) by by_chars.
      intros c Hc. specialize (F c). now rewrite Hc in F.
    - cbn [forallb]. change (clean_char ":") with true. cbn [andb].
      subst rest. rewrite !sforallb_app.
      repeat (apply andb_true_iff; split).
      + unfold separator. now destruct (_ || _).
      + revert Hall. apply sforallb_impl.
        intros c Hc. unfold netloc_text_char in Hc.
        now apply andb_true_iff in Hc as [-> _].
      + now apply Fpc.
      + apply with_mark_forallb; [reflexivity | now apply Fpc].
      + apply with_mark_forallb; [reflexivity | now apply Fpc]. }
  assert (Hsan : sanitize (s +:+ String ":" rest) = s +:+ String ":" rest).
  { rewrite Es in *. change (String c0 r +:+ String ":" rest)
      with (String c0 (r +:+ String ":" rest)) in *.
    apply sanitize_clean.
    - assert (F : forall c, implb (is_alpha c) (negb (c0_control_or_space c)) = true)
        by by_chars.
      specialize (F c0). rewrite Hal in F. now apply negb_true_iff in F.
    - now apply (forallb_absent _ _ _ Hclean).
    - now apply (forallb_absent _ _ _ Hclean).
    - now apply (forallb_absent _ _ _ Hclean). }
  unfold urlsplit. rewrite Hsan, (split_scheme_canonical s rest Hs).
  assert (Hnet : split_netloc rest
                 = Ok (a, p +:+ with_mark "?" q +:+ with_mark "#" f)).
  { subst rest. unfold separator in *.
    destruct (negb (a =? "") || (s =? "file")).
    - apply split_netloc_plain.
      + revert Hall. apply sforallb_impl.
        intros c Hc. unfold netloc_text_char in Hc.
        now apply andb_true_iff in Hc as [_ ->].
      + apply delim_start_parts. now apply Hsep1.
    - destruct (Hsep2 eq_refl) as [-> Ht]. simpl.
      now apply split_netloc_absent. }
  rewrite Hnet. cbn [bind].
  rewrite split_fragment_query_parts; [reflexivity|..].
  - now apply (forallb_absent _ _ _ Hp).
  - now apply (forallb_absent _ _ _ Hp).
  - now apply (forallb_absent _ _ _ Hq).
Qed.

Lemma head_is_app c (x y : string) :
  x <> "" -> head_is c (x +:+ y) = head_is c x.
Proof. destruct x; [contradiction | reflexivity]. Qed.

Lemma take2_no_slash (y : string) :
  head_is "/" y = false -> (take 2 y =? "//") = false.
Proof.
  destruct y as [|d y]; [reflexivity|]. cbn [head_is take String.eqb].
  intros ->. reflexivity.
Qed.

Lemma take2_one_slash (y : string) :
  head_is "/" y = false -> (take 2 (String "/" y) =? "//") = false.
Proof.
  destruct y as [|d y]; [reflexivity|]. cbn [head_is take String.eqb].
  intros ->. reflexivity.
Qed.

Lemma startswith_two_slashes (p : string) :
  startswith p "//"
  = match p with
    | String c (String d _) => Ascii.eqb c "/" && Ascii.eqb d "/"
    | _ => false
    end.
Proof.
  unfold startswith. destruct p as [|c [|d r]]; try reflexivity.
  - rewrite sprefix_cons. cbn. now rewrite andb_false_r.
  - rewrite !sprefix_cons. replace (String.prefix "" r) with true by now destruct r.
    now rewrite andb_true_r, (Ascii.eqb_sym "/" c), (Ascii.eqb_sym "/" d).
Qed.

Lemma charwise_head_app fc (x y : string) :
  keeps_slash fc -> x <> "" ->
  head_is "/" (charwise fc x +:+ y) = head_is "/" x.
Proof.
  intros Hf Hx. destruct x as [|c r]; [contradiction|].
  cbn [charwise]. rewrite sapp_assoc. specialize (Hf c). cbn [head_is].
  destruct (Ascii.eqb c "/").
  - apply String.eqb_eq in Hf. now rewrite Hf.
  - apply andb_true_iff in Hf as [H1 H2].
    destruct (fc c) as [|e t]; [discriminate|]. cbn in *.
    now apply negb_true_iff in H2.
Qed.

Lemma no_double_slash fc (p qf : string) :
  keeps_slash fc -> startswith p "//" = false -> head_is "/" qf = false ->
  (take 2 (charwise fc p +:+ qf) =? "//") = false.
Proof.
  intros Hf Hp Hq. rewrite startswith_two_slashes in Hp.
  destruct p as [|c r]; [now apply take2_no_slash|].
  destruct (Ascii.eqb c "/") eqn:Ec.
  - apply Ascii.eqb_eq in Ec. subst c. rewrite (charwise_slash fc r Hf).
    change (String "/" (charwise fc r) +:+ qf)
      with (String "/" (charwise fc r +:+ qf)).
    apply take2_one_slash. destruct r as [|d r']; [exact Hq|].
    rewrite charwise_head_app by (assumption || discriminate).
    exact Hp.
  - apply take2_no_slash.
    rewrite charwise_head_app by (assumption || discriminate).
    exact Ec.
Qed.



(** ** The authority: what [as_string] writes and [unquote] reads back *)


























(** The conditions on the authority are needed: a slash in it ends the
    netloc, empty credentials are dropped with their [@], and the port is
    written as it is, so that the parser takes a [?] in it for the start of
    the query and decodes an escape in it. *)
Example authority_not_read_back :
  parse (as_string false (uri_of "http" "a/b" "/p" "" "") true)
  = Ok (uri_of "http" "a" "/b/p" "" "")
  /\ parse (as_string false (uri_of "http" "@host" "/p" "" "") true)
     = Ok (uri_of "http" "host" "/p" "" "")
  /\ parse (as_string false (uri_of "http" "host:8?1" "/p" "" "") true)
     = Ok (uri_of "http" "host:8" "/" "1/p" "")
  /\ parse (as_string false (uri_of "http" "host:%41" "/p" "" "") true)
     = Ok (uri_of "http" "host:A" "/p" "" "")
  /\ parse (as_string false (uri_of "http" "ho%41st" "/p" "" "") false)
     = Ok (uri_of "http" "hoAst" "/p" "" "").
Proof. repeat split; reflexivity. Qed.



(** * Further properties *)

(** ** The invariants of the class *)

Lemma post_init_valid (u : Uri) : __attrs_post_init__ u = Ok tt <-> valid u.
Proof.
  unfold __attrs_post_init__, valid. split.
  - destruct (scheme u) as [s|]; [|discriminate].
    destruct (SCHEME_match s) eqn:Es; simpl; [|discriminate].
    destruct (truthy (authority u)), (truthy (path u)); simpl;
      destruct (startswith (fmt (path u)) "/") eqn:E1; simpl; try discriminate;
      destruct (startswith (fmt (path u)) "//") eqn:E2; simpl; try discriminate;
      intros _; exists s; repeat split; auto; discriminate.
  - intros (s & -> & Hs & H1 & H2). rewrite Hs. simpl.
    destruct (truthy (authority u)), (truthy (path u)); simpl; try reflexivity.
    + rewrite H1 by reflexivity. simpl. now rewrite andb_false_r.
    + destruct (startswith (fmt (path u)) "//") eqn:E2; [|reflexivity].
      discriminate (H2 eq_refl eq_refl).
Qed.

Lemma create_ok_post_init sch a p q f u :
  create sch a p q f = Ok u -> __attrs_post_init__ u = Ok tt.
Proof. intros H. apply create_ok_fields in H. tauto. Qed.

(** X1: Every Uri that [create], [parse], [for_file], [where] or [join] returns
    keeps the invariants of the class: a scheme that matches [SCHEME], a
    path that starts with a slash when there is an authority, and an
    authority when the path starts with two slashes. *)
Theorem constructors_keep_invariants (os : OsPath) (is_win : bool) (u : Uri) :
  (exists sch a p q f, create sch a p q f = Ok u)
  \/ (exists uri, parse uri = Ok u)
  \/ (exists filepath, for_file is_win filepath = Ok u)
  \/ (exists u0 kwargs, where_ u0 kwargs = Ok u)
  \/ (exists u0 segment, join u0 segment = Ok u) ->
  valid u.
Proof.
  intros H. apply post_init_valid.
  destruct H as [(sch & a & p & q & f & H)
                | [(uri & H) | [(fp & H) | [(u0 & kw & H) | (u0 & seg & H)]]]].
  - eapply create_ok_post_init, H.
  - unfold parse in H. destruct (Uris.urlparse uri) as [[[[[[s a] p] par] q] f]| |];
      simpl in H; try discriminate.
    eapply create_ok_post_init, H.
  - unfold for_file in H.
    destruct (if startswith _ "//" then _ else _) as [a p] in H.
    eapply create_ok_post_init, H.
  - rewrite where_spec in H. eapply create_ok_post_init, H.
  - unfold join in H. destruct (negb (truthy (path u0))); [discriminate|].
    rewrite where_spec in H. eapply create_ok_post_init, H.
Qed.

Lemma constructors_keep_invariants_witness :
  valid (uri_of "file" "server" "/share/file.txt" "" "").
Proof.
  apply (constructors_keep_invariants posixpath false).
  right. right. left. exists "//server/share/file.txt". reflexivity.
Defined.

(** ** What [create] accepts *)

(** X2: On text components [create] succeeds exactly when the scheme matches
    [SCHEME] and the path it stores starts with a slash if there is an
    authority and not with two if there is none; it then returns these
    components, and it raises [ValueError] otherwise. *)
Theorem create_accepts (s a p q f : string) :
  let p' := coerce_path s p in
  let ok := SCHEME_match s
            && negb (negb (a =? "") && negb (p' =? "") && negb (startswith p' "/"))
            && negb (negb (p' =? "") && startswith p' "//" && (a =? "")) in
  (ok = true -> create_str s a p q f = Ok (uri_of s a p' q f))
  /\ (ok = false -> exists msg, create_str s a p q f = Raise (ValueError msg))
  /\ (SCHEME_match s = false ->
      create_str s a p q f = Raise (ValueError "Invalid scheme")).
Proof.
  intros p' ok.
  assert (Hc : create_str s a p q f
               = Uri_init (Some s) (Some a) (Some p') (Some q) (Some f)).
  { unfold create_str, create, p', coerce_path, coerced.
    destruct (mem s ["http"; "https"; "file"]); simpl; [|reflexivity].
    destruct (startswith p "/"); reflexivity. }
  rewrite Hc. unfold Uri_init, __attrs_post_init__, ok.
  cbn [scheme authority path query fragment truthy fmt].
  destruct (SCHEME_match s); simpl.
  - destruct (negb (a =? "")) eqn:Ea; simpl.
    + apply negb_true_iff in Ea. rewrite Ea, !andb_false_r. simpl.
      destruct (negb (p' =? "")); simpl.
      * destruct (startswith p' "/"); simpl;
          repeat split; intros; try discriminate; eauto.
      * repeat split; intros; try discriminate; eauto.
    + apply negb_false_iff in Ea. rewrite Ea, !andb_true_r.
      destruct (negb (p' =? "")); simpl.
      * destruct (startswith p' "//"); simpl;
          repeat split; intros; try discriminate; eauto.
      * repeat split; intros; try discriminate; eauto.
  - repeat split; intros; try discriminate; eauto.
Qed.

Lemma create_accepts_witness :
  create_str "https" "example.org" "docs" "" ""
  = Ok (uri_of "https" "example.org" "/docs" "" "")
  /\ (exists msg, create_str "ssh" "" "//oops" "" "" = Raise (ValueError msg))
  /\ create_str "1bad" "" "" "" "" = Raise (ValueError "Invalid scheme").
Proof.
  split; [|split].
  - apply (create_accepts "https" "example.org" "docs" "" ""). reflexivity.
  - apply (create_accepts "ssh" "" "//oops" "" ""). reflexivity.
  - apply (create_accepts "1bad" "" "" "" ""). reflexivity.
Defined.

Lemma Uri_init_ok s a p q f u :
  Uri_init s a p q f = Ok u ->
  u = Build_Uri s a p q f /\ Uri_init s a p q f = Ok (Build_Uri s a p q f).
Proof.
  unfold Uri_init. destruct (__attrs_post_init__ _) as [[]| |]; simpl;
    try discriminate. intros H. injection H as <-. auto.
Qed.

(** X3: A Uri that [create] returns passes through [create] unchanged, and so
    through [where] called with no replacement. *)
Theorem create_idempotent (sch a p q f : option string) (u : Uri) :
  create sch a p q f = Ok u ->
  create (scheme u) (authority u) (path u) (query u) (fragment u) = Ok u
  /\ where_ u ∅ = Ok u.
Proof.
  intros H.
  assert (Hc : create (scheme u) (authority u) (path u) (query u) (fragment u)
               = Ok u).
  { unfold create in *.
    destruct (match sch with Some s => mem s _ | None => false end) eqn:Em.
    - destruct p as [p0|]; [|discriminate].
      assert (Hp : exists p1, startswith p1 "/" = true
                              /\ Uri_init sch a (Some p1) q f = Ok u).
      { destruct (startswith p0 "/") eqn:E0; simpl in H; eauto.
        exists ("/" +:+ p0). split; [now rewrite startswith_slash | exact H]. }
      destruct Hp as (p1 & E1 & Hi). apply Uri_init_ok in Hi as [-> Hi].
      cbn [scheme authority path query fragment]. rewrite Em, E1. exact Hi.
    - cbn [bind] in H. apply Uri_init_ok in H as [-> Hi].
      cbn [scheme authority path query fragment]. rewrite Em. exact Hi. }
  split; [exact Hc|]. rewrite where_spec. unfold pick.
  rewrite !lookup_empty. exact Hc.
Qed.

Lemma create_idempotent_witness :
  where_ (uri_of "http" "h" "/a" "" "") ∅ = Ok (uri_of "http" "h" "/a" "" "").
Proof.
  apply (create_idempotent (Some "http") (Some "h") (Some "a") (Some "") (Some "")).
  reflexivity.
Defined.

(** ** The scheme that [urlsplit] finds *)

Lemma scheme_tail_chars (x : string) :
  forallb scheme_char x = true -> scheme_tail x = true.
Proof.
  induction x as [|c r IH]; simpl; [reflexivity|].
  intros H. apply andb_true_iff in H as [H1 H2]. now rewrite H1, IH.
Qed.

Lemma lower_forallb (P Q : ascii -> bool) (x : string) :
  (forall c, implb (P c) (Q (lower_char c)) = true) ->
  forallb P x = true -> forallb Q (lower x) = true.
Proof.
  intros HPQ. induction x as [|c r IH]; simpl; [reflexivity|].
  intros H. apply andb_true_iff in H as [H1 H2].
  specialize (HPQ c). rewrite H1 in HPQ. simpl in HPQ. now rewrite HPQ, IH.
Qed.

Lemma split_scheme_out (url : string) :
  fst (split_scheme url) = ""
  \/ canonical_scheme (fst (split_scheme url)) = true.
Proof.
  unfold split_scheme. destruct (find ":" url) as [[|i]|]; try (now left).
  destruct url as [|c0 r]; [now left|].
  destruct (is_ascii c0 && is_alpha c0
            && forallb scheme_chars (take (S i) (String c0 r))) eqn:E;
    [|now left].
  right. apply andb_true_iff in E as [E Hall].
  apply andb_true_iff in E as [_ Hal]. cbn [fst].
  change (take (S i) (String c0 r)) with (String c0 (take i r)) in *.
  unfold canonical_scheme. apply andb_true_iff. split.
  - cbn [lower SCHEME_match].
    assert (F : forall c, implb (is_alpha c) (is_alpha (lower_char c)) = true)
      by by_chars.
    specialize (F c0). rewrite Hal in F. simpl in F. rewrite F. simpl.
    apply scheme_tail_chars. cbn [forallb] in Hall.
    apply andb_true_iff in Hall as [_ Hall]. revert Hall.
    apply lower_forallb. by_chars.
  - revert Hall. apply lower_forallb. by_chars.
Qed.

Lemma urlsplit_scheme (url s n p q f : string) :
  urlsplit url = Ok (s, n, p, q, f) -> s = "" \/ canonical_scheme s = true.
Proof.
  unfold urlsplit. pose proof (split_scheme_out (sanitize url)) as H.
  destruct (split_scheme (sanitize url)) as [s0 rest]. cbn [fst] in H.
  destruct (split_netloc rest) as [[n0 u0]| |]; simpl; try discriminate.
  destruct (split_fragment_query u0) as [[u1 q0] f0].
  intros E. injection E as <- _ _ _ _. exact H.
Qed.

Lemma canonical_no_percent (s : string) :
  s = "" \/ canonical_scheme s = true -> contains "%" s = false.
Proof.
  intros [->|H]; [reflexivity|].
  unfold canonical_scheme in H. apply andb_true_iff in H as [_ H].
  apply (forallb_absent _ _ _ H). reflexivity.
Qed.

Lemma uris_urlparse_scheme (uri s n p par q f : string) :
  Uris.urlparse uri = Ok (s, n, p, par, q, f) ->
  s = "" \/ canonical_scheme s = true.
Proof.
  unfold Uris.urlparse, UrllibParse.urlparse.
  destruct (urlsplit uri) as [[[[[s0 n0] p0] q0] f0]| |] eqn:E; simpl;
    try discriminate.
  apply urlsplit_scheme in E.
  destruct (if mem s0 uses_params && contains ";" p0 then _ else _) as [p1 par1].
  cbn [bind]. rewrite (unquote_plain s0) by now apply canonical_no_percent.
  cbn [bind].
  destruct (unquote n0); simpl; try discriminate.
  destruct (unquote p1); simpl; try discriminate.
  destruct (unquote par1); simpl; try discriminate.
  destruct (unquote q0); simpl; try discriminate.
  destruct (unquote f0); simpl; try discriminate.
  intros H. injection H as <- _ _ _ _ _. exact E.
Qed.

(** X4: A Uri that [parse] returns holds five texts, and its scheme is in lower
    case: a letter followed by lower-case letters, digits and [+.-]. *)
Theorem parse_scheme_lower_case (uri : string) (u : Uri) :
  parse uri = Ok u ->
  exists s a p q f, u = uri_of s a p q f /\ canonical_scheme s = true.
Proof.
  unfold parse.
  destruct (Uris.urlparse uri) as [[[[[[s a] p] par] q] f]| |] eqn:E; simpl;
    try discriminate.
  intros H. apply uris_urlparse_scheme in E.
  destruct (create_str_fixed s a p q f u H) as (p' & -> & _ & Hv & _).
  exists s, a, p', q, f. split; [reflexivity|].
  destruct E as [->|E]; [|exact E].
  apply post_init_facts in Hv as [Hm _]. discriminate.
Qed.

Lemma parse_scheme_lower_case_witness :
  exists s a p q f,
    uri_of "http" "host" "/a" "" "" = uri_of s a p q f
    /\ canonical_scheme s = true.
Proof.
  apply (parse_scheme_lower_case "HTTP://host/a"). reflexivity.
Defined.

(** X5: [uri_scheme] returns the empty text or a scheme in lower case, and for
    a text that [parse] accepts it is the scheme of the parsed Uri. *)
Theorem uri_scheme_of_parsed (uri : string) :
  (forall s, uri_scheme uri = Ok (Some s) ->
             s = "" \/ canonical_scheme s = true)
  /\ (forall u, parse uri = Ok u -> uri_scheme uri = Ok (scheme u)).
Proof.
  unfold uri_scheme, parse. split.
  - intros s.
    destruct (Uris.urlparse uri) as [[[[[[s0 a] p] par] q] f]|[]|] eqn:E; simpl;
      try discriminate.
    intros H. injection H as <-. now apply uris_urlparse_scheme in E.
  - intros u.
    destruct (Uris.urlparse uri) as [[[[[[s0 a] p] par] q] f]|[]|] eqn:E; simpl;
      try discriminate.
    intros H. apply create_ok_fields in H as [-> _]. reflexivity.
Qed.

Lemma uri_scheme_of_parsed_witness :
  uri_scheme "File:///C:/x" = Ok (Some "file").
Proof.
  apply (proj2 (uri_scheme_of_parsed "File:///C:/x")
           (uri_of "file" "" "/C:/x" "" "")).
  reflexivity.
Defined.

(** ** Drive letters and separators *)

Lemma drive_match_slash l (rest : string) :
  is_alpha l = true ->
  RE_DRIVE_LETTER_PATH_match (String "/" (String l (String ":" rest)))
  = Some ("/", String l ":", 3).
Proof.
  intros Hl. unfold RE_DRIVE_LETTER_PATH_match.
  rewrite startswith_slash. cbn [head_is drop drive_at slice take Nat.sub].
  now rewrite Hl.
Qed.

Lemma drive_match_bare l (rest : string) :
  is_alpha l = true ->
  RE_DRIVE_LETTER_PATH_match (String l (String ":" rest))
  = Some ("", String l ":", 2).
Proof.
  intros Hl. unfold RE_DRIVE_LETTER_PATH_match.
  rewrite startswith_slash. cbn [head_is drop drive_at take].
  assert (F : forall c, implb (is_alpha c) (negb (Ascii.eqb c "/")) = true)
    by by_chars.
  specialize (F l). rewrite Hl in F. apply negb_true_iff in F.
  now rewrite F, Hl.
Qed.

Lemma drive_match_shape (s g1 g2 : string) (e : nat) :
  RE_DRIVE_LETTER_PATH_match s = Some (g1, g2, e) ->
  exists l rest,
    is_alpha l = true /\ g2 = String l ":"
    /\ ((g1 = "/" /\ e = 3 /\ s = String "/" (String l (String ":" rest)))
        \/ (g1 = "" /\ e = 2 /\ s = String l (String ":" rest))).
Proof.
  unfold RE_DRIVE_LETTER_PATH_match. rewrite startswith_slash.
  destruct (head_is "/" s && drive_at (drop 1 s)) eqn:E.
  - apply andb_true_iff in E as [E0 E1].
    destruct s as [|c0 [|c1 [|c2 rest]]]; try discriminate.
    cbn [head_is drop drive_at] in E0, E1.
    apply Ascii.eqb_eq in E0. subst c0.
    apply andb_true_iff in E1 as [Hl Hc]. apply Ascii.eqb_eq in Hc. subst c2.
    intros H. injection H as <- <- <-. exists c1, rest. auto 10.
  - destruct (drive_at s) eqn:E2; [|discriminate].
    destruct s as [|c0 [|c1 s2]]; try discriminate.
    cbn [drive_at] in E2.
    apply andb_true_iff in E2 as [Hl Hc]. apply Ascii.eqb_eq in Hc. subst c1.
    intros H. injection H as <- <- <-. exists c0, s2. auto 10.
Qed.

Lemma slashed_clean (is_win : bool) (p : string) :
  is_win = true -> contains backslash (slashed is_win p) = false.
Proof. intros ->. unfold slashed. now rewrite replace_absent. Qed.

Lemma slashed_fixed (is_win : bool) (p : string) :
  (is_win = true -> contains backslash p = false) -> slashed is_win p = p.
Proof.
  unfold slashed. destruct is_win; [|reflexivity].
  intros H. apply replace_none. now apply H.
Qed.

Lemma slashed_cons (is_win : bool) c (p : string) :
  Ascii.eqb c backslash = false ->
  slashed is_win (String c p) = String c (slashed is_win p).
Proof. intros H. unfold slashed. destruct is_win; simpl; now rewrite ?H. Qed.

Lemma alpha_facts l :
  is_alpha l = true ->
  Ascii.eqb l backslash = false /\ Ascii.eqb (lower_char l) backslash = false
  /\ is_alpha (lower_char l) = true /\ lower_char (lower_char l) = lower_char l.
Proof.
  assert (F : forall c, implb (is_alpha c)
    (negb (Ascii.eqb c backslash) && negb (Ascii.eqb (lower_char c) backslash)
     && is_alpha (lower_char c)
     && Ascii.eqb (lower_char (lower_char c)) (lower_char c)) = true) by by_chars.
  intros Hl. specialize (F l). rewrite Hl in F. simpl in F.
  repeat (apply andb_true_iff in F as [F ?]).
  apply negb_true_iff in F. repeat split; auto.
  - now apply negb_true_iff.
  - now apply Ascii.eqb_eq.
Qed.

Lemma normalize_path_shape (is_win : bool) (p : string) :
  let p1 := slashed is_win p in
  (exists l rest, is_alpha l = true
     /\ p1 = String "/" (String l (String ":" rest))
     /\ _normalize_path is_win p
        = String "/" (String (lower_char l) (String ":" rest)))
  \/ (exists l rest, is_alpha l = true
        /\ p1 = String l (String ":" rest)
        /\ _normalize_path is_win p = String (lower_char l) (String ":" rest))
  \/ (RE_DRIVE_LETTER_PATH_match p1 = None /\ _normalize_path is_win p = p1).
Proof.
  intros p1. unfold _normalize_path. fold (slashed is_win p). fold p1.
  destruct (RE_DRIVE_LETTER_PATH_match p1) as [[[g1 g2] e]|] eqn:E; [|auto].
  destruct (drive_match_shape _ _ _ _ E)
    as (l & rest & Hl & -> & [(-> & -> & Hp) | (-> & -> & Hp)]).
  - left. exists l, rest. rewrite Hp. auto.
  - right. left. exists l, rest. rewrite Hp. auto.
Qed.

Lemma normalize_path_clean (is_win : bool) (p : string) :
  is_win = true -> contains backslash (_normalize_path is_win p) = false.
Proof.
  intros Hw. pose proof (slashed_clean is_win p Hw) as Hs.
  destruct (normalize_path_shape is_win p)
    as [(l & rest & Hl & Hp & ->) | [(l & rest & Hl & Hp & ->) | [_ ->]]];
    [| |exact Hs]; rewrite Hp in Hs; cbn [contains] in Hs |- *;
    destruct (alpha_facts l Hl) as (_ & H2 & _);
    repeat (apply orb_false_iff in Hs as [? Hs]);
    now rewrite H2, Hs, ?orb_false_r.
Qed.

(** X6: [_normalize_path] is idempotent, and on a Windows platform its result
    holds no backslash. *)
Theorem normalize_path_idempotent (is_win : bool) (p : string) :
  _normalize_path is_win (_normalize_path is_win p) = _normalize_path is_win p
  /\ (is_win = true -> contains backslash (_normalize_path is_win p) = false).
Proof.
  pose proof (normalize_path_clean is_win p) as Hclean.
  split; [|exact Hclean].
  assert (Hfix : slashed is_win (_normalize_path is_win p)
                 = _normalize_path is_win p) by now apply slashed_fixed.
  destruct (normalize_path_shape is_win p)
    as [(l & rest & Hl & Hp & Hn) | [(l & rest & Hl & Hp & Hn) | [Hm Hn]]].
  - destruct (alpha_facts l Hl) as (_ & _ & Ha & Hi).
    unfold _normalize_path at 1. fold (slashed is_win (_normalize_path is_win p)).
    rewrite Hfix, Hn, (drive_match_slash _ rest Ha). cbn. now rewrite Hi.
  - destruct (alpha_facts l Hl) as (_ & _ & Ha & Hi).
    unfold _normalize_path at 1. fold (slashed is_win (_normalize_path is_win p)).
    rewrite Hfix, Hn, (drive_match_bare _ rest Ha). cbn. now rewrite Hi.
  - unfold _normalize_path at 1. fold (slashed is_win (_normalize_path is_win p)).
    rewrite Hfix, Hn, Hm. reflexivity.
Qed.

Lemma normalize_path_idempotent_witness :
  contains backslash (_normalize_path true "C:\Users\x") = false.
Proof.
  apply (proj2 (normalize_path_idempotent true "C:\Users\x")). reflexivity.
Defined.

(** X7: Without an authority, the [fs_path] of a path that starts with a slash
    and a drive letter is the path without the slash, with the letter in
    lower case. *)
Theorem fs_path_drive_letter (is_win : bool) (u : Uri) l (rest : string) :
  truthy (authority u) = false -> is_alpha l = true ->
  path u = Some (String "/" (String l (String ":" rest))) ->
  fs_path is_win u
  = Some (String (lower_char l) (String ":" (slashed is_win rest))).
Proof.
  intros Ha Hl Hp. destruct (alpha_facts l Hl) as (Hb & Hlb & Hal & _).
  assert (Hs : slashed is_win (String "/" (String l (String ":" rest)))
               = String "/" (String l (String ":" (slashed is_win rest))))
    by now rewrite !slashed_cons.
  assert (Hn : _normalize_path is_win (String "/" (String l (String ":" rest)))
               = String "/" (String (lower_char l)
                               (String ":" (slashed is_win rest)))).
  { unfold _normalize_path.
    fold (slashed is_win (String "/" (String l (String ":" rest)))).
    rewrite Hs, (drive_match_slash _ _ Hl). reflexivity. }
  unfold fs_path. rewrite Hp, Ha. cbn [truthy fmt negb String.eqb andb].
  rewrite Hn. unfold RE_DRIVE_LETTER_PATH_matches.
  rewrite (drive_match_slash _ _ Hal). cbn [drop].
  fold (slashed is_win (String (lower_char l) (String ":" (slashed is_win rest)))).
  rewrite !slashed_cons by (assumption || reflexivity).
  f_equal. f_equal. f_equal. apply slashed_fixed. intros Hw.
  now apply slashed_clean.
Qed.

Lemma fs_path_drive_letter_witness :
  fs_path true (uri_of "file" "" "/C:/Users\x" "" "") = Some "c:/Users/x".
Proof.
  apply (fs_path_drive_letter true (uri_of "file" "" "/C:/Users\x" "" "")
           "C" "/Users\x"); reflexivity.
Defined.

(** X8: On a Windows platform a path that [fs_path] returns holds no backslash
    and a path that [to_fs_path] returns holds no slash. *)
Theorem windows_separators :
  (forall u p, fs_path true u = Some p -> contains backslash p = false)
  /\ (forall uri v, to_fs_path true uri = Ok (Some v) -> contains "/" v = false).
Proof.
  split; [exact fs_path_win_no_backslash|].
  intros uri v. unfold to_fs_path.
  destruct (Uris.urlparse uri) as [[[[[[s n] p] par] q] f]|[]|]; simpl;
    try discriminate.
  destruct (if negb (n =? "") && negb (p =? "") && (s =? "file") then _ else _)
    as [v0|[]|]; simpl; try discriminate.
  intros H. injection H as <-. now rewrite replace_absent.
Qed.

Lemma windows_separators_witness :
  contains backslash "c:/Users/x" = false /\ contains "/" "c:\Users\x" = false.
Proof.
  split.
  - apply (proj1 windows_separators (uri_of "file" "" "/C:/Users\x" "" "")).
    reflexivity.
  - apply (proj2 windows_separators "file:///C:/Users/x"). reflexivity.
Defined.

(** ** The legacy functions: what they raise and what they return *)

(** X9: Without a [path] argument [uri_with] returns nothing: once the text is
    parsed, the normalization of the missing path raises. *)
Theorem uri_with_needs_path (is_win : bool) (uri : string)
    (sch n par q f : option string) :
  (forall t, Uris.urlparse uri = Ok t ->
     uri_with is_win uri sch n None par q f
     = Raise (if is_win
              then AttributeError "'NoneType' object has no attribute 'replace'"
              else TypeError "'NoneType' object is not subscriptable"))
  /\ (forall v, uri_with is_win uri sch n None par q f <> Ok v).
Proof.
  unfold uri_with. split.
  - intros [[[[[s0 n0] p0] par0] q0] f0] ->. destruct is_win; reflexivity.
  - intros v.
    destruct (Uris.urlparse uri) as [[[[[[s0 n0] p0] par0] q0] f0]| |];
      destruct is_win; discriminate.
Qed.

Lemma uri_with_needs_path_witness :
  uri_with false "file:///a" (Some "http") None None None None None
  = Raise (TypeError "'NoneType' object is not subscriptable").
Proof.
  apply (proj1 (uri_with_needs_path false "file:///a" (Some "http") None None
                  None None) ("file", "", "/a", "", "", "")).
  reflexivity.
Defined.

Lemma find_contains c (r : string) :
  match find c r with
  | None => contains c r = false
  | Some i => contains c (take i r) = false /\ head_is c (drop i r) = true
              /\ contains c r = true
  end.
Proof.
  induction r as [|d r IH]; simpl; [reflexivity|].
  destruct (Ascii.eqb d c) eqn:E; simpl; [auto|].
  destruct (find c r) as [i|]; simpl; [|exact IH].
  rewrite E. simpl. exact IH.
Qed.

Lemma index_at_cons c (s : string) : index_at 0 (String c s) = Ok c.
Proof. reflexivity. Qed.

Lemma ensure_slash_head (x : string) :
  head_is "/" (if negb (startswith x "/") then "/" +:+ x else x) = true.
Proof.
  rewrite startswith_slash. destruct (head_is "/" x) eqn:E; simpl; auto.
Qed.

(** What [_normalize_win_path] does with a text: it raises on a path that
    is two slashes and a name with no slash after it, and otherwise returns
    a path that starts with a slash, with a lower-case drive letter, and a
    netloc that holds no slash. *)
Lemma normalize_win_path_text (is_win : bool) (p : string) :
  let p1 := slashed is_win p in
  ((take 2 p1 =? "//") = true /\ contains "/" (drop 2 p1) = false
   /\ _normalize_win_path is_win (Some p)
      = Raise (ValueError "substring not found"))
  \/ (((take 2 p1 =? "//") = false \/ contains "/" (drop 2 p1) = true)
      /\ exists path netloc,
        _normalize_win_path is_win (Some p) = Ok (path, netloc)
        /\ head_is "/" path = true /\ contains "/" netloc = false
        /\ (netloc <> "" -> (take 2 p1 =? "//") = true)
        /\ (RE_DRIVE_LETTER_PATH_matches path = true ->
            exists l rest, is_alpha l = true /\ lower_char l = l
                           /\ path = String "/" (String l (String ":" rest)))).
Proof.
  intros p1.
  assert (Hstart : _normalize_win_path is_win (Some p)
    = (let* '(path, netloc) :=
         if take 2 p1 =? "//" then
           let* idx := index_from "/" 2 p1 in
           Ok (drop idx p1, slice 2 idx p1)
         else Ok (p1, "") in
       finish_win_path path netloc)).
  { unfold _normalize_win_path, finish_win_path, p1, slashed.
    destruct is_win; reflexivity. }
  assert (Hfin : forall path0 netloc : string,
    exists path : string,
      finish_win_path path0 netloc = Ok (path, netloc)
      /\ head_is "/" path = true
      /\ (RE_DRIVE_LETTER_PATH_matches path = true ->
          exists l rest, is_alpha l = true /\ lower_char l = l
                         /\ path = String "/" (String l (String ":" rest)))).
  { intros path0 netloc. unfold finish_win_path. cbv zeta.
    pose proof (ensure_slash_head path0) as Hh.
    set (path1 := if negb (startswith path0 "/") then "/" +:+ path0 else path0) in *.
    unfold RE_DRIVE_LETTER_PATH_matches at 1.
    destruct (RE_DRIVE_LETTER_PATH_match path1) as [[[g1 g2] e]|] eqn:E.
    - destruct (drive_match_shape _ _ _ _ E)
        as (l & rest & Hl & _ & [(_ & _ & Hp) | (_ & _ & Hp)]).
      + rewrite Hp. cbn. destruct (alpha_facts l Hl) as (_ & _ & Ha & Hi).
        eexists. split; [reflexivity|]. split; [reflexivity|].
        intros _. exists (lower_char l), rest. auto.
      + exfalso. rewrite Hp in Hh. cbn in Hh. apply Ascii.eqb_eq in Hh. subst l.
        discriminate.
    - cbn. exists path1. split; [reflexivity|]. split; [exact Hh|].
      unfold RE_DRIVE_LETTER_PATH_matches. rewrite E. discriminate. }
  rewrite Hstart. clear Hstart.
  destruct (take 2 p1 =? "//") eqn:E2.
  - assert (Hp1 : exists r, p1 = String "/" (String "/" r)).
    { apply String.eqb_eq in E2. clear Hfin.
      destruct p1 as [|a [|b r]]; cbn [take] in E2; try discriminate.
      injection E2 as -> ->. eauto. }
    destruct Hp1 as [r Hp1]. rewrite Hp1.
    unfold index_from. cbn [find_from drop].
    pose proof (find_contains "/" r) as Hf.
    destruct (find "/" r) as [i|]; simpl option_map.
    + right. destruct Hf as (Hn & Hh & Hc). split; [now right|].
      cbn [bind]. unfold slice. cbn [drop Nat.sub].
      replace (i - 0) with i by lia.
      destruct (Hfin (drop i r) (take i r)) as (path & -> & H1 & H2).
      exists path, (take i r). repeat split; auto.
    + left. repeat split; auto.
  - right. split; [now left|]. cbn [bind].
    destruct (Hfin p1 "") as (path & -> & H1 & H2).
    exists path, "". repeat split; auto; congruence.
Qed.

Lemma sprefix_app (a b : string) : String.prefix a (a +:+ b) = true.
Proof.
  induction a as [|c a IH]; [change ("" +:+ b) with b; now destruct b|].
  change (String c a +:+ b) with (String c (a +:+ b)).
  now rewrite sprefix_cons, Ascii.eqb_refl, IH.
Qed.

Lemma take1_head (x : string) :
  head_is "/" x = true -> negb (x =? "") && negb (take 1 x =? "/") = false.
Proof.
  destruct x as [|c x]; [discriminate|]. cbn [head_is]. intros H.
  apply Ascii.eqb_eq in H. subst c. now destruct x.
Qed.

Lemma quoted_path_head (path : string) :
  head_is "/" path = true -> head_is "/" (quoted_path path) = true.
Proof.
  intros H. unfold quoted_path.
  destruct (RE_DRIVE_LETTER_PATH_matches path).
  - destruct path as [|c r]; [discriminate|]. exact H.
  - rewrite quote_charwise, charwise_head by apply quote_keeps_slash. exact H.
Qed.

(** The text [urlunparse] builds for the scheme file and a path that starts
    with a slash. *)
Lemma urlunparse_file (netloc path : string) :
  head_is "/" path = true ->
  Uris.urlunparse "file" netloc path "" "" ""
  = if negb (quote netloc =? "") || negb (take 2 (quoted_path path) =? "//")
    then "file://" +:+ quote netloc +:+ quoted_path path
    else "file:" +:+ quoted_path path.
Proof.
  intros H. pose proof (take1_head _ (quoted_path_head path H)) as Ht.
  unfold Uris.urlunparse, UrllibParse.urlunparse, urlunsplit.
  fold (quoted_path path).
  change (quote "file") with "file". change (quote "") with "".
  cbn [String.eqb negb]. change (mem "file" uses_netloc) with true.
  cbn [andb]. rewrite Ht.
  destruct (negb (quote netloc =? "") || negb (take 2 (quoted_path path) =? "//"));
    reflexivity.
Qed.

Lemma urlunparse_file_prefix (netloc path : string) :
  head_is "/" path = true ->
  startswith (Uris.urlunparse "file" netloc path "" "" "") "file://" = true.
Proof.
  intros H. rewrite urlunparse_file by exact H. unfold startswith.
  destruct (negb (quote netloc =? "")); cbn [orb]; [apply sprefix_app|].
  destruct (take 2 (quoted_path path) =? "//") eqn:E; cbn [negb];
    [|apply sprefix_app].
  apply String.eqb_eq in E.
  destruct (quoted_path path) as [|a [|b r]]; cbn [take] in E; try discriminate.
  injection E as -> ->. apply (sprefix_app "file://" r).
Qed.

(** X10: [from_fs_path] returns [None] for [None]; for a text of the model
    (code points U+0000 to U+00FF) it raises exactly
    when the path, read with the slashes of the platform, is two slashes
    and a name with no slash after it, and otherwise returns a text that
    starts with [file://]. *)
Theorem from_fs_path_outcome (is_win : bool) (p : string) :
  let p1 := slashed is_win p in
  let bare_server := (take 2 p1 =? "//") && negb (contains "/" (drop 2 p1)) in
  from_fs_path is_win None = Ok None
  /\ (bare_server = true ->
      from_fs_path is_win (Some p) = Raise (ValueError "substring not found"))
  /\ (bare_server = false ->
      exists r, from_fs_path is_win (Some p) = Ok (Some r)
                /\ startswith r "file://" = true).
Proof.
  intros p1 bare. split; [apply from_fs_path_None|].
  unfold from_fs_path. cbv zeta.
  pose proof (normalize_win_path_text is_win p) as H. cbv zeta in H.
  fold p1 in H.
  destruct H as [(H1 & H2 & ->) | (Hb & path & netloc & -> & Hh & _)].
  - split; [reflexivity|]. subst bare. rewrite H1, H2. discriminate.
  - split.
    + subst bare. destruct Hb as [->| ->]; [discriminate|].
      rewrite andb_false_r. discriminate.
    + intros _. cbn [bind]. eexists. split; [reflexivity|].
      now apply urlunparse_file_prefix.
Qed.

Lemma from_fs_path_outcome_witness :
  from_fs_path true (Some "\\server")
  = Raise (ValueError "substring not found")
  /\ exists r, from_fs_path true (Some "C:\Users\x") = Ok (Some r)
               /\ startswith r "file://" = true.
Proof.
  split.
  - apply (from_fs_path_outcome true "\\server"). reflexivity.
  - apply (from_fs_path_outcome true "C:\Users\x"). reflexivity.
Defined.

(** *** What can escape *)

Lemma unquote_runs_no_raise runs e : unquote_runs runs <> Raise e.
Proof.
  induction runs as [|[run tl] more IH]; simpl; [discriminate|].
  destruct (utf8_decode (unquote_to_bytes run)); [|discriminate].
  destruct (unquote_runs more); simpl; congruence.
Qed.

Lemma unquote_no_raise x e : unquote x <> Raise e.
Proof.
  unfold unquote, unquote_parts. destruct (negb (contains "%" x)); [discriminate|].
  destruct (asciire_split x) as [b0 runs].
  pose proof (unquote_runs_no_raise runs) as H.
  destruct (unquote_runs runs); simpl; congruence.
Qed.

Lemma urlsplit_raise url e :
  urlsplit url = Raise e -> e = ValueError "Invalid IPv6 URL".
Proof.
  unfold urlsplit. destruct (split_scheme (sanitize url)) as [s rest].
  unfold split_netloc.
  destruct (take 2 rest =? "//"); cbn [bind].
  - destruct (splitnetloc rest 2) as [n r].
    destruct (_ || _).
    + cbn [bind]. congruence.
    + destruct (_ && _).
      * unfold check_bracketed_netloc.
        destruct (partition "[" (rpartition_tail "@" n)) as [[bb hb] br].
        destruct hb; [|discriminate].
        destruct (negb (bb =? "")); [cbn [bind]; congruence|].
        destruct (partition "]" br) as [[x y] port].
        destruct (_ && _); [cbn [bind]; congruence | discriminate].
      * cbn [bind]. destruct (split_fragment_query r) as [[? ?] ?]. discriminate.
  - destruct (split_fragment_query rest) as [[? ?] ?]. discriminate.
Qed.

Lemma uris_urlparse_raise uri e :
  Uris.urlparse uri = Raise e -> e = ValueError "Invalid IPv6 URL".
Proof.
  unfold Uris.urlparse, UrllibParse.urlparse.
  destruct (urlsplit uri) as [[[[[s n] p] q] f]|e'|] eqn:E; cbn [bind];
    [| intros H; injection H as <-; now apply urlsplit_raise in E | discriminate].
  destruct (if mem s uses_params && contains ";" p then _ else _) as [p1 par].
  cbn [bind].
  repeat match goal with
         | |- context [bind (unquote ?x) _] =>
             let H := fresh in
             pose proof (unquote_no_raise x) as H;
             destruct (unquote x); cbn [bind]; try congruence;
             try (exfalso; eapply H; reflexivity)
         end.
Qed.

(** A character of a part of a text is a character of the text. *)
Lemma contains_drop c n (s : string) :
  contains c (drop n s) = true -> contains c s = true.
Proof.
  revert s. induction n as [|n IH]; intros [|d s]; cbn [drop contains]; auto.
  intros H. rewrite (IH s H). apply orb_true_r.
Qed.

Lemma contains_take c n (s : string) :
  contains c (take n s) = true -> contains c s = true.
Proof.
  revert s. induction n as [|n IH]; intros [|d s]; cbn [take contains];
    try discriminate.
  intros H. apply orb_true_iff in H as [->|H]; [reflexivity|].
  rewrite (IH s H). apply orb_true_r.
Qed.

Lemma contains_lstrip c p (s : string) :
  contains c (lstrip p s) = true -> contains c s = true.
Proof.
  induction s as [|d s IH]; cbn [lstrip]; [auto|].
  destruct (p d); [|auto]. intros H. cbn [contains]. rewrite (IH H).
  apply orb_true_r.
Qed.

Lemma contains_removed c d (s : string) :
  contains c (replace d "" s) = true -> contains c s = true.
Proof.
  induction s as [|x s IH]; cbn [replace contains]; [auto|].
  destruct (Ascii.eqb x d).
  - change ("" +:+ replace d "" s) with (replace d "" s).
    intros H. rewrite (IH H). apply orb_true_r.
  - cbn [contains]. intros H. apply orb_true_iff in H as [->|H]; [reflexivity|].
    rewrite (IH H). apply orb_true_r.
Qed.

Lemma contains_netloc c (url : string) s rest n r :
  split_scheme (sanitize url) = (s, rest) -> splitnetloc rest 2 = (n, r) ->
  contains c n = true -> contains c url = true.
Proof.
  intros Hs Hn Hc.
  assert (Hrest : contains c rest = true).
  { unfold splitnetloc in Hn. injection Hn as <- _. unfold slice in Hc.
    now apply contains_take, contains_drop in Hc. }
  assert (Hsan : contains c (sanitize url) = true).
  { unfold split_scheme in Hs.
    destruct (find ":" (sanitize url)) as [[|i]|];
      try (injection Hs as _ <-; exact Hrest).
    destruct (sanitize url) as [|c0 t] eqn:E;
      [injection Hs as _ <-; exact Hrest|].
    destruct (_ && _); injection Hs as _ <-; [|exact Hrest].
    apply contains_drop in Hrest. cbn [contains]. rewrite Hrest.
    apply orb_true_r. }
  unfold sanitize in Hsan.
  now apply contains_removed, contains_removed, contains_removed,
    contains_lstrip in Hsan.
Qed.

(** On a text that does not hold both brackets [urlsplit] makes no check of
    a bracketed host: the model covers its run. *)
Lemma urlsplit_modelled (url : string) :
  contains "[" url && contains "]" url = false -> urlsplit url <> Unmodelled.
Proof.
  intros Hb. unfold urlsplit.
  destruct (split_scheme (sanitize url)) as [s rest] eqn:Es.
  unfold split_netloc.
  destruct (take 2 rest =? "//"); cbn [bind].
  - destruct (splitnetloc rest 2) as [n r] eqn:En.
    destruct (_ || _); [cbn [bind]; discriminate|].
    destruct (contains "[" n && contains "]" n) eqn:E.
    + exfalso. apply andb_true_iff in E as [E1 E2].
      rewrite (contains_netloc _ _ _ _ _ _ Es En E1),
        (contains_netloc _ _ _ _ _ _ Es En E2) in Hb. discriminate.
    + cbn [bind]. destruct (split_fragment_query r) as [[? ?] ?]. discriminate.
  - destruct (split_fragment_query rest) as [[? ?] ?]. discriminate.
Qed.

Lemma from_fs_path_modelled (is_win : bool) p : from_fs_path is_win p <> Unmodelled.
Proof.
  destruct p as [p|]; [|rewrite from_fs_path_None; discriminate].
  unfold from_fs_path.
  pose proof (normalize_win_path_text is_win p) as H. cbv zeta in H.
  destruct H as [(_ & _ & ->) | (_ & path & netloc & -> & _)];
    cbn [bind]; discriminate.
Qed.

(** X11: Within the texts of the model (code points U+0000 to U+00FF) the
    only exception that the legacy functions let through is [ValueError].
    [from_fs_path], whose every run the model covers, raises nothing but
    the [ValueError] of [str.index].  On a uri that does not hold both
    brackets, so that [urlsplit] makes no check of a bracketed host and the
    model covers its run, [to_fs_path] and [uri_scheme] raise nothing but
    the [ValueError] of [urlsplit]; the indexing after a match of the drive
    letter is always in range. *)
Theorem legacy_functions_raise_value_error (is_win : bool) :
  (forall p, from_fs_path is_win p <> Unmodelled
             /\ forall e, from_fs_path is_win p = Raise e ->
                          e = ValueError "substring not found")
  /\ (forall uri, contains "[" uri && contains "]" uri = false ->
        urlsplit uri <> Unmodelled
        /\ forall e, to_fs_path is_win uri = Raise e
                     \/ uri_scheme uri = Raise e ->
                     e = ValueError "Invalid IPv6 URL").
Proof.
  split.
  - intros p. split; [apply from_fs_path_modelled|]. intros e.
    destruct p as [p|]; [|rewrite from_fs_path_None; discriminate].
    unfold from_fs_path.
    pose proof (normalize_win_path_text is_win p) as H. cbv zeta in H.
    destruct H as [(_ & _ & ->) | (_ & path & netloc & -> & _)];
      cbn [bind]; [intros H; now injection H as <- | discriminate].
  - intros uri Hb. split; [now apply urlsplit_modelled|]. intros e [H|H].
    + revert H. unfold to_fs_path.
      destruct (Uris.urlparse uri) as [[[[[[s n] p] par] q] f]|e'|] eqn:E;
        cbn [bind].
      * assert (Hv : exists v,
          (if negb (n =? "") && negb (p =? "") && (s =? "file")
           then Ok ("//" +:+ n +:+ p)
           else if RE_DRIVE_LETTER_PATH_matches p
                then let* c1 := index_at 1 p in
                     Ok (String (lower_char c1) (drop 2 p))
                else Ok p) = Ok v).
        { destruct (negb (n =? "") && negb (p =? "") && (s =? "file"));
            [eauto|].
          unfold RE_DRIVE_LETTER_PATH_matches.
          destruct (RE_DRIVE_LETTER_PATH_match p) as [[[g1 g2] k]|] eqn:Em;
            [|eauto].
          destruct (drive_match_shape _ _ _ _ Em)
            as (l & rest & _ & _ & [(_ & _ & ->) | (_ & _ & ->)]);
            cbn; eauto. }
        destruct Hv as [v ->]. discriminate.
      * apply uris_urlparse_raise in E. subst e'.
        intros H. now injection H as <-.
      * discriminate.
    + revert H. unfold uri_scheme.
      destruct (Uris.urlparse uri) as [[[[[[s n] p] par] q] f]|e'|] eqn:E;
        [discriminate| |discriminate].
      apply uris_urlparse_raise in E. subst e'. intros H. now injection H as <-.
Qed.

Lemma legacy_functions_raise_value_error_witness :
  contains "[" "http://[" && contains "]" "http://[" = false
  /\ to_fs_path false "http://[" = Raise (ValueError "Invalid IPv6 URL")
  /\ ValueError "Invalid IPv6 URL" = ValueError "Invalid IPv6 URL".
Proof.
  split; [reflexivity|]. split; [reflexivity|].
  apply (proj2 (proj2 (legacy_functions_raise_value_error false) "http://["
                  eq_refl) (ValueError "Invalid IPv6 URL")).
  left. reflexivity.
Defined.

(** ** From a path to a file URI and back *)

Lemma unquote_bytes_prefix (t r : string) :
  contains "%" t = false -> unquote_bytes (t +:+ r) = t +:+ unquote_bytes r.
Proof.
  induction t as [|c t IH]; [reflexivity|]. cbn [contains].
  intros H. apply orb_false_iff in H as [H1 H2].
  change (String c t +:+ r) with (String c (t +:+ r)).
  rewrite unquote_bytes_other by exact H1. now rewrite IH.
Qed.

Lemma utf8_decode_prefix (t b : string) :
  forallb is_ascii t = true ->
  utf8_decode (t +:+ b) = option_map (String.append t) (utf8_decode b).
Proof.
  induction t as [|c t IH]; cbn [forallb].
  - intros _. change ("" +:+ b) with b. now destruct (utf8_decode b).
  - intros H. apply andb_true_iff in H as [H1 H2].
    change (String c t +:+ b) with (String c (t +:+ b)).
    cbn [utf8_decode]. rewrite H1, (IH H2). now destruct (utf8_decode b).
Qed.

(** [unquote] reads back a text that [quote] has encoded behind a prefix
    that needs no encoding. *)
Lemma unquote_prefix_quote (t y : string) :
  forallb is_ascii t = true -> contains "%" t = false ->
  unquote (t +:+ quote y) = Ok (t +:+ y).
Proof.
  intros Ha Hp. unfold unquote.
  destruct (contains "%" (t +:+ quote y)) eqn:E; cbn [negb].
  - assert (Hne : t +:+ quote y <> "") by (intros H; rewrite H in E; discriminate).
    rewrite <- (sapp_nil_r (t +:+ quote y)).
    rewrite unquote_parts_run; try assumption; try reflexivity.
    + unfold unquote_to_bytes.
      rewrite utf8_encode_ascii
        by (rewrite sforallb_app, Ha; apply quote_from_bytes_ascii).
      rewrite unquote_bytes_prefix by exact Hp.
      unfold quote. rewrite unquote_bytes_quote, utf8_decode_prefix by exact Ha.
      rewrite utf8_decode_encode. cbn. now rewrite sapp_nil_r.
    + rewrite sforallb_app, Ha. apply quote_from_bytes_ascii.
  - rewrite contains_app in E. apply orb_false_iff in E as [_ E].
    rewrite quote_charwise in *. f_equal. f_equal.
    apply charwise_no_percent; [|exact E]. by_chars.
Qed.

Lemma urlsplit_file (n qp : string) :
  forallb netloc_char n = true -> forallb part_char qp = true ->
  head_is "/" qp = true ->
  urlsplit ("file://" +:+ n +:+ qp) = Ok ("file", n, qp, "", "").
Proof.
  intros Hn Hq Hh.
  assert (Fn : forall c, implb (netloc_char c)
                           (clean_char c && negb (contains c "/?#[]")) = true)
    by by_chars.
  assert (Fp : forall c, implb (part_char c) (clean_char c) = true) by by_chars.
  assert (Hclean : forallb clean_char ("file://" +:+ n +:+ qp) = true).
  { assert (Hn' : forallb clean_char n = true).
    { revert Hn. apply sforallb_impl. intros c Hc. specialize (Fn c).
      rewrite Hc in Fn. now apply andb_true_iff in Fn as [-> _]. }
    assert (Hq' : forallb clean_char qp = true).
    { revert Hq. apply sforallb_impl. intros c Hc. specialize (Fp c).
      now rewrite Hc in Fp. }
    rewrite (sforallb_app clean_char "file://" (n +:+ qp)), sforallb_app.
    now rewrite Hn', Hq'. }
  unfold urlsplit.
  change ("file://" +:+ n +:+ qp) with (String "f" ("ile://" +:+ n +:+ qp)) in *.
  rewrite sanitize_clean;
    try reflexivity; try now apply (forallb_absent _ _ _ Hclean).
  change (String "f" ("ile://" +:+ n +:+ qp))
    with ("file" +:+ String ":" ("//" +:+ n +:+ qp)).
  rewrite split_scheme_canonical by reflexivity.
  rewrite split_netloc_plain.
  - cbn [bind].
    pose proof (split_fragment_query_parts qp "" "") as H.
    unfold with_mark in H. cbn [String.eqb negb] in H.
    rewrite !sapp_nil_r in H. rewrite H; [reflexivity|..];
      try reflexivity; now apply (forallb_absent _ _ _ Hq).
  - revert Hn. apply sforallb_impl. intros c Hc. specialize (Fn c).
    rewrite Hc in Fn. now apply andb_true_iff in Fn as [_ ->].
  - destruct qp as [|c r]; [discriminate|]. cbn in *.
    apply Ascii.eqb_eq in Hh. now subst c.
Qed.

Lemma quoted_path_facts (path : string) :
  head_is "/" path = true ->
  (RE_DRIVE_LETTER_PATH_matches path = true ->
   exists l rest, is_alpha l = true /\ lower_char l = l
                  /\ path = String "/" (String l (String ":" rest))) ->
  forallb part_char (quoted_path path) = true
  /\ unquote (quoted_path path) = Ok path
  /\ (startswith path "//" = false ->
      (take 2 (quoted_path path) =? "//") = false).
Proof.
  intros Hh Hd. unfold quoted_path.
  assert (Hq : forall x, forallb part_char (quote x) = true).
  { intros x. rewrite quote_charwise.
    apply charwise_forallb with (P := fun _ => true);
      [by_chars | apply sforallb_true]. }
  destruct (RE_DRIVE_LETTER_PATH_matches path).
  - destruct (Hd eq_refl) as (l & rest & Hl & _ & ->).
    cbn [take drop].
    assert (F : forall c, implb (is_alpha c)
              (part_char c && is_ascii c && negb (Ascii.eqb c "%")
               && negb (Ascii.eqb c "/")) = true) by by_chars.
    specialize (F l). rewrite Hl in F. cbn [implb] in F.
    repeat (apply andb_true_iff in F as [F ?]).
    split; [|split].
    + rewrite sforallb_app, Hq. cbn. now rewrite F.
    + apply (unquote_prefix_quote (String "/" (String l ":")) rest).
      * cbn. now rewrite H1.
      * cbn. apply negb_true_iff in H0. now rewrite H0.
    + intros _. cbn. apply negb_true_iff in H. now rewrite H.
  - split; [apply Hq|]. split; [apply unquote_quote|].
    intros Hs. rewrite quote_charwise, <- (sapp_nil_r (charwise quote_char path)).
    apply no_double_slash; [apply quote_keeps_slash | exact Hs | reflexivity].
Qed.

(** Reading the text of [urlunparse] back with [to_fs_path]. *)
Lemma round_trip_text (is_win : bool) (p path netloc : string) :
  _normalize_win_path is_win (Some p) = Ok (path, netloc) ->
  (netloc = "" -> startswith path "//" = false) ->
  to_fs_path is_win (Uris.urlunparse "file" netloc path "" "" "")
  = Ok (Some (native is_win
                (if negb (netloc =? "") then "//" +:+ netloc +:+ path
                 else if RE_DRIVE_LETTER_PATH_matches path
                      then drop 1 path else path))).
Proof.
  intros Hnorm Hunc.
  pose proof (normalize_win_path_text is_win p) as H. cbv zeta in H.
  destruct H as [(_ & _ & H) | (_ & path' & netloc' & H & Hh & Hn & _ & Hd)];
    rewrite Hnorm in H; [discriminate|].
  injection H as <- <-.
  destruct (quoted_path_facts path Hh Hd) as (Cq & Uq & Tq).
  assert (Cn : forallb netloc_char (quote netloc) = true).
  { rewrite quote_charwise.
    apply charwise_forallb with (P := fun d => negb (Ascii.eqb d "/"));
      [by_chars | now apply absent_forallb]. }
  assert (Huri : Uris.urlunparse "file" netloc path "" "" ""
                 = "file://" +:+ quote netloc +:+ quoted_path path).
  { rewrite urlunparse_file by exact Hh.
    destruct (String.eqb_spec netloc "") as [->|Hne].
    - rewrite Tq by now apply Hunc. reflexivity.
    - replace (quote netloc =? "") with false; [reflexivity|].
      symmetry. rewrite quote_charwise, charwise_empty
        by apply quote_char_nonempty.
      now apply String.eqb_neq. }
  rewrite Huri. unfold to_fs_path, Uris.urlparse, UrllibParse.urlparse.
  rewrite urlsplit_file by (assumption || now apply quoted_path_head).
  cbn [bind]. change (mem "file" uses_params) with false. cbn [andb bind].
  change (unquote "file") with (Ok (A:=string) "file").
  change (unquote "") with (Ok (A:=string) "").
  rewrite unquote_quote, Uq. cbn [bind].
  change ("file" =? "file") with true. rewrite andb_true_r.
  assert (Hpne : negb (path =? "") = true)
    by (destruct path; [discriminate | reflexivity]).
  rewrite Hpne, andb_true_r. unfold native.
  destruct (negb (netloc =? "")); cbn [bind]; [reflexivity|].
  destruct (RE_DRIVE_LETTER_PATH_matches path) eqn:Em; [|reflexivity].
  destruct (Hd eq_refl) as (l & rest & _ & Hl & ->). cbn. now rewrite Hl.
Qed.

(** X12: For a path of the model (code points U+0000 to U+00FF) without a
    server part, or with one followed by a slash, [to_fs_path] reads back
    from the text of [from_fs_path] the normalized path: with its server
    part in front, or else without the slash before a drive letter, in the
    separators of the platform. *)
Theorem fs_path_uri_round_trip (is_win : bool) (p path netloc : string) :
  _normalize_win_path is_win (Some p) = Ok (path, netloc) ->
  (netloc = "" -> startswith path "//" = false) ->
  exists uri,
    from_fs_path is_win (Some p) = Ok (Some uri)
    /\ to_fs_path is_win uri
       = Ok (Some (native is_win
                     (if negb (netloc =? "") then "//" +:+ netloc +:+ path
                      else if RE_DRIVE_LETTER_PATH_matches path
                           then drop 1 path else path))).
Proof.
  intros Hnorm Hunc.
  exists (Uris.urlunparse "file" netloc path "" "" ""). split.
  - unfold from_fs_path. now rewrite Hnorm.
  - now apply (round_trip_text is_win p).
Qed.

Lemma fs_path_uri_round_trip_witness :
  exists uri,
    from_fs_path true (Some "\\server\share\My Docs") = Ok (Some uri)
    /\ to_fs_path true uri = Ok (Some "\\server\share\My Docs").
Proof.
  apply (fs_path_uri_round_trip true "\\server\share\My Docs"
           "/share/My Docs" "server").
  - reflexivity.
  - discriminate.
Defined.

Lemma take2_startswith (p : string) : (take 2 p =? "//") = startswith p "//".
Proof.
  rewrite startswith_two_slashes. destruct p as [|c [|d r]]; try reflexivity.
  - cbn. destruct (Ascii.eqb c "/"); reflexivity.
  - cbn. destruct (Ascii.eqb c "/"), (Ascii.eqb d "/"); reflexivity.
Qed.

(** X13: On a POSIX platform [to_fs_path] reads back from the text of
    [from_fs_path] every absolute path that starts with one slash and has
    no drive letter. *)
Theorem posix_path_round_trip (p : string) :
  head_is "/" p = true -> startswith p "//" = false ->
  RE_DRIVE_LETTER_PATH_matches p = false ->
  exists uri, from_fs_path false (Some p) = Ok (Some uri)
              /\ to_fs_path false uri = Ok (Some p).
Proof.
  intros Hh Hs Hd.
  assert (Hn : _normalize_win_path false (Some p) = Ok (p, "")).
  { unfold _normalize_win_path. cbn [bind].
    rewrite take2_startswith, Hs. cbn [bind].
    rewrite startswith_slash, Hh. cbn [negb]. now rewrite Hd. }
  exists (Uris.urlunparse "file" "" p "" "" ""). split.
  - unfold from_fs_path. now rewrite Hn.
  - rewrite (round_trip_text false p p "" Hn (fun _ => Hs)).
    cbn. now rewrite Hd.
Qed.

Lemma posix_path_round_trip_witness :
  exists uri, from_fs_path false (Some "/home/me/a b#1?.txt") = Ok (Some uri)
              /\ to_fs_path false uri = Ok (Some "/home/me/a b#1?.txt").
Proof. apply (posix_path_round_trip "/home/me/a b#1?.txt"); reflexivity. Defined.

(** ** Uris of files *)

Lemma split_app c (a r : string) :
  contains c a = false -> split c (a +:+ String c r) = a :: split c r.
Proof.
  induction a as [|d a IH]; cbn [contains].
  - intros _. change ("" +:+ String c r) with (String c r). cbn [split].
    now rewrite Ascii.eqb_refl.
  - intros H. apply orb_false_iff in H as [H1 H2].
    change (String d a +:+ String c r) with (String d (a +:+ String c r)).
    cbn [split]. now rewrite H1, (IH H2).
Qed.

Lemma slashed_idempotent (is_win : bool) (p : string) :
  slashed is_win (slashed is_win p) = slashed is_win p.
Proof. apply slashed_fixed. apply slashed_clean. Qed.

Lemma create_file_plain (p1 : string) :
  startswith p1 "//" = false ->
  create_str "file" "" p1 "" ""
  = Ok (uri_of "file" "" (if startswith p1 "/" then p1 else "/" +:+ p1) "" "").
Proof.
  intros Hs.
  set (p' := if startswith p1 "/" then p1 else "/" +:+ p1).
  assert (Hc : create_str "file" "" p1 "" ""
               = Uri_init (Some "file") (Some "") (Some p') (Some "") (Some "")).
  { unfold create_str, create, p'.
    change (mem "file" ["http"; "https"; "file"]) with true. cbv iota.
    destruct (startswith p1 "/"); reflexivity. }
  assert (Hp : startswith p' "//" = false).
  { subst p'. destruct (startswith p1 "/") eqn:E; [exact Hs|].
    rewrite startswith_two_slashes.
    change ("/" +:+ p1) with (String "/" p1).
    rewrite startswith_slash in E. destruct p1 as [|c r]; [reflexivity|].
    cbn [head_is] in E. now rewrite E. }
  rewrite Hc. unfold Uri_init, __attrs_post_init__.
  cbn [scheme authority path query fragment truthy fmt].
  change (SCHEME_match "file") with true.
  change (negb ("" =? "")) with false. rewrite Hp.
  cbn [negb andb]. rewrite andb_false_r. reflexivity.
Qed.

(** X14: [for_file] accepts every path that, read with the slashes of the
    platform, does not start with two slashes: it returns the file Uri with
    no authority, query or fragment whose path is that path with a slash in
    front, and the [fs_path] of this Uri is its normalized path, without
    the slash before a drive letter. *)
Theorem for_file_plain (is_win : bool) (p : string) :
  let p1 := slashed is_win p in
  let path := if startswith p1 "/" then p1 else "/" +:+ p1 in
  let n := _normalize_path is_win path in
  startswith p1 "//" = false ->
  for_file is_win p = Ok (uri_of "file" "" path "" "")
  /\ fs_path is_win (uri_of "file" "" path "" "")
     = Some (if RE_DRIVE_LETTER_PATH_matches n then drop 1 n else n)
  /\ (RE_DRIVE_LETTER_PATH_matches p1 = false -> n = path).
Proof.
  intros p1 path n Hs.
  assert (Hp : slashed is_win path = path).
  { subst path. destruct (startswith p1 "/").
    - apply slashed_idempotent.
    - change ("/" +:+ p1) with (String "/" p1).
      rewrite (slashed_cons is_win "/" p1) by reflexivity.
      f_equal. apply slashed_idempotent. }
  split; [|split].
  - unfold for_file. cbv zeta.
    change (if is_win then replace backslash "/" p else p) with p1.
    rewrite Hs. apply create_file_plain, Hs.
  - unfold fs_path. cbn [Uris.path authority uri_of truthy fmt].
    fold path. fold n.
    assert (Hne : negb (path =? "") = true).
    { subst path. destruct (startswith p1 "/") eqn:E.
      - rewrite startswith_slash in E. now destruct p1.
      - reflexivity. }
    rewrite Hne. cbn [String.eqb negb andb]. f_equal.
    fold (slashed is_win (if RE_DRIVE_LETTER_PATH_matches n then drop 1 n else n)).
    apply slashed_fixed. intros Hw.
    pose proof (normalize_path_clean is_win path Hw) as Hc.
    fold n in Hc. destruct (RE_DRIVE_LETTER_PATH_matches n); [|exact Hc].
    destruct n as [|c r]; [reflexivity|]. cbn [drop]. cbn [contains] in Hc.
    now apply orb_false_iff in Hc as [_ ->].
  - intros Hd. subst n. unfold _normalize_path.
    change (if is_win then replace backslash "/" path else path)
      with (slashed is_win path).
    rewrite Hp.
    assert (Hm : RE_DRIVE_LETTER_PATH_match path = None); [|now rewrite Hm].
    unfold RE_DRIVE_LETTER_PATH_matches in Hd.
    subst path. destruct (startswith p1 "/") eqn:E.
    + now destruct (RE_DRIVE_LETTER_PATH_match p1).
    + unfold RE_DRIVE_LETTER_PATH_match in *. rewrite E in Hd.
      cbn [andb] in Hd.
      destruct (drive_at p1) eqn:E1; [discriminate|].
      change ("/" +:+ p1) with (String "/" p1). cbn [drop].
      rewrite E1, andb_false_r.
      destruct p1 as [|c [|d r]]; reflexivity.
Qed.

Lemma for_file_plain_witness :
  let p1 := slashed true "C:\Users\me" in
  let path := if startswith p1 "/" then p1 else "/" +:+ p1 in
  let n := _normalize_path true path in
  startswith p1 "//" = false
  /\ for_file true "C:\Users\me" = Ok (uri_of "file" "" "/C:/Users/me" "" "")
  /\ fs_path true (uri_of "file" "" "/C:/Users/me" "" "") = Some "c:/Users/me".
Proof.
  intros p1 path n.
  destruct (for_file_plain true "C:\Users\me" eq_refl) as (H1 & H2 & _).
  split; [reflexivity|]. split; [exact H1 | exact H2].
Defined.

(** X15: [for_file] splits every UNC path [//server/rest] at the slash after the
    server, and [fs_path] puts the two parts together again: the result is
    the path given, with the slashes of the platform turned forward. *)
Theorem for_file_unc (is_win : bool) (p a rest : string) :
  slashed is_win p = "//" +:+ a +:+ "/" +:+ rest ->
  a <> "" -> contains "/" a = false ->
  rest <> "" -> head_is "/" rest = false ->
  RE_DRIVE_LETTER_PATH_matches rest = false ->
  for_file is_win p = Ok (uri_of "file" a ("/" +:+ rest) "" "")
  /\ fs_path is_win (uri_of "file" a ("/" +:+ rest) "" "")
     = Some (slashed is_win p).
Proof.
  intros Hp Ha Hsl Hr Hh Hd.
  assert (Hda : drive_at rest = false).
  { unfold RE_DRIVE_LETTER_PATH_matches, RE_DRIVE_LETTER_PATH_match in Hd.
    rewrite startswith_slash, Hh in Hd. cbn [andb] in Hd.
    now destruct (drive_at rest). }
  assert (Hm : RE_DRIVE_LETTER_PATH_match (String "/" rest) = None).
  { unfold RE_DRIVE_LETTER_PATH_match. cbn [drop].
    rewrite Hda, andb_false_r. destruct rest as [|c r]; reflexivity. }
  assert (Hclean : is_win = true -> contains backslash (String "/" rest) = false
                                    /\ contains backslash a = false).
  { intros Hw. pose proof (slashed_clean is_win p Hw) as Hc. rewrite Hp in Hc.
    change ("//" +:+ a +:+ "/" +:+ rest)
      with (String "/" (String "/" (a +:+ String "/" rest))) in Hc.
    cbn [contains] in Hc.
    apply orb_false_iff in Hc as [_ Hc]. apply orb_false_iff in Hc as [_ Hc].
    rewrite contains_app in Hc. apply orb_false_iff in Hc as [Hc1 Hc2].
    split; assumption. }
  assert (Hn : _normalize_path is_win (String "/" rest) = String "/" rest).
  { unfold _normalize_path.
    change (if is_win then replace backslash "/" (String "/" rest)
            else String "/" rest) with (slashed is_win (String "/" rest)).
    rewrite slashed_fixed by (intros Hw; apply (Hclean Hw)).
    now rewrite Hm. }
  split.
  - unfold for_file. cbv zeta.
    change (if is_win then replace backslash "/" p else p)
      with (slashed is_win p).
    rewrite Hp.
    replace (startswith ("//" +:+ a +:+ "/" +:+ rest) "//") with true
      by (symmetry; apply sprefix_app).
    change (drop 2 ("//" +:+ a +:+ "/" +:+ rest)) with (a +:+ String "/" rest).
    rewrite (split_app "/" a rest Hsl).
    rewrite (join_split "/" rest).
    unfold create. change (mem "file" ["http"; "https"; "file"]) with true.
    cbv iota. rewrite startswith_slash, Hh. cbn [negb bind].
    change ("/" +:+ rest) with (String "/" rest).
    unfold Uri_init, __attrs_post_init__.
    cbn [scheme authority path query fragment truthy fmt bind].
    change (SCHEME_match "file") with true.
    rewrite startswith_slash. cbn [head_is]. rewrite Ascii.eqb_refl.
    assert (Hne : negb (a =? "") = true)
      by (destruct a; [contradiction | reflexivity]).
    rewrite Hne. cbn [negb andb]. rewrite !andb_false_r. reflexivity.
  - unfold fs_path. change ("/" +:+ rest) with (String "/" rest).
    cbn [path authority uri_of truthy fmt].
    change (negb (String "/" rest =? "")) with true. cbv iota.
    rewrite Hn.
    assert (Hne : negb (a =? "") = true)
      by (destruct a; [contradiction | reflexivity]).
    rewrite Hne.
    assert (Hlen : (1 <? String.length (String "/" rest))%nat = true).
    { destruct rest; [contradiction | reflexivity]. }
    rewrite Hlen. cbn [andb]. f_equal.
    fold (slashed is_win ("//" +:+ a +:+ String "/" rest)).
    change ("//" +:+ a +:+ String "/" rest) with ("//" +:+ a +:+ "/" +:+ rest).
    rewrite <- Hp. apply slashed_idempotent.
Qed.

Lemma for_file_unc_witness :
  for_file true "\\host\c$\Program Files"
  = Ok (uri_of "file" "host" "/c$/Program Files" "" "")
  /\ fs_path true (uri_of "file" "host" "/c$/Program Files" "" "")
     = Some "//host/c$/Program Files".
Proof.
  apply (for_file_unc true "\\host\c$\Program Files" "host" "c$/Program Files");
    try reflexivity; discriminate.
Defined.

(** ** The escapes of [_replace_chars] *)

Lemma contains_forallb c (x : string) :
  contains c x = false -> forallb (fun d => negb (Ascii.eqb d c)) x = true.
Proof.
  induction x as [|d x IH]; cbn [contains forallb]; [reflexivity|].
  intros H. apply orb_false_iff in H as [H1 H2]. now rewrite H1, IH.
Qed.

Lemma unquote_bytes_escaped (t : string) :
  forallb (fun d => negb (Ascii.eqb d "%")) t = true ->
  unquote_bytes (charwise replace_char t) = t.
Proof.
  induction t as [|c r IH]; cbn [forallb charwise]; [reflexivity|].
  intros H. apply andb_true_iff in H as [H1 H2].
  apply negb_true_iff in H1.
  assert (Hc : unquote_bytes (replace_char c +:+ charwise replace_char r)
               = String c (unquote_bytes (charwise replace_char r))).
  { unfold replace_char.
    destruct (Ascii.eqb_spec c "#") as [->|N1];
      [now apply unquote_bytes_escape|].
    destruct (Ascii.eqb_spec c "?") as [->|N2];
      [now apply unquote_bytes_escape|].
    change (String c "" +:+ charwise replace_char r)
      with (String c (charwise replace_char r)).
    now apply unquote_bytes_other. }
  now rewrite Hc, IH.
Qed.

Lemma unquote_parts_escaped (x : string) :
  forallb (fun d => negb (Ascii.eqb d "%")) x = true ->
  forall t, forallb is_ascii t = true ->
            forallb (fun d => negb (Ascii.eqb d "%")) t = true ->
  unquote_parts (charwise replace_char (t +:+ x)) = Ok (t +:+ x).
Proof.
  assert (Hrun : forall t, forallb is_ascii t = true ->
            forallb (fun d => negb (Ascii.eqb d "%")) t = true ->
            utf8_decode (unquote_to_bytes (charwise replace_char t)) = Some t).
  { intros t Ha Hr. unfold unquote_to_bytes.
    rewrite utf8_encode_ascii by now apply replace_char_ascii.
    rewrite unquote_bytes_escaped by exact Hr. now apply utf8_decode_ascii. }
  assert (Hne : forall t, t <> "" -> charwise replace_char t <> "").
  { intros t Ht H. apply String.eqb_eq in H.
    rewrite charwise_empty in H by apply replace_char_nonempty.
    now apply String.eqb_eq in H. }
  induction x as [|c x' IH]; intros Hx t Ha Hr.
  - rewrite sapp_nil_r. destruct (string_dec t "") as [->|Ht]; [reflexivity|].
    rewrite <- (sapp_nil_r (charwise replace_char t)).
    rewrite unquote_parts_run; auto using replace_char_ascii.
    rewrite Hrun by assumption. simpl. now rewrite sapp_nil_r.
  - cbn [forallb] in Hx. apply andb_true_iff in Hx as [Hc Hx].
    destruct (is_ascii c) eqn:Ec.
    + replace (t +:+ String c x') with ((t +:+ String c "") +:+ x')
        by now rewrite sapp_assoc.
      apply IH; [exact Hx| |].
      * now rewrite sforallb_app, Ha; simpl; rewrite Ec.
      * rewrite sforallb_app, Hr. cbn [forallb]. now rewrite Hc.
    + assert (Hc' : replace_char c = String c "").
      { assert (F : forall c, is_ascii c || (replace_char c =? String c "") = true)
          by by_chars.
        specialize (F c). rewrite Ec in F. now apply String.eqb_eq in F. }
      assert (Htail : unquote_parts (String c (charwise replace_char x'))
                      = Ok (String c x')).
      { rewrite unquote_parts_non_ascii by exact Ec.
        specialize (IH Hx "" eq_refl eq_refl). simpl in IH. now rewrite IH. }
      rewrite charwise_app. simpl. rewrite Hc'.
      change (String c "" +:+ charwise replace_char x')
        with (String c (charwise replace_char x')).
      destruct (string_dec t "") as [->|Ht]; [exact Htail|].
      rewrite unquote_parts_run; auto using replace_char_ascii.
      * rewrite Hrun by assumption. now rewrite Htail.
      * simpl. now rewrite Ec.
Qed.

Lemma charwise_absent (f : ascii -> string) c (x : string) :
  (forall d, negb (contains c (f d)) = true) -> contains c (charwise f x) = false.
Proof.
  intros Hf. induction x as [|d x IH]; cbn [charwise]; [reflexivity|].
  rewrite contains_app, IH, orb_false_r. apply negb_true_iff, Hf.
Qed.

(** X16: The text that [_replace_chars] returns holds no [#] and no [?], so that
    neither can end a component of the Uri it is written into; and when the
    segment holds no percent sign, [unquote] reads the segment back from
    it. *)
Theorem replace_chars_escapes (segment : string) :
  contains "#" (_replace_chars segment) = false
  /\ contains "?" (_replace_chars segment) = false
  /\ (contains "%" segment = false ->
      unquote (_replace_chars segment) = Ok segment).
Proof.
  rewrite replace_chars_charwise. split; [|split].
  - apply charwise_absent. by_chars.
  - apply charwise_absent. by_chars.
  - intros Hx. apply contains_forallb in Hx. unfold unquote.
    destruct (contains "%" (charwise replace_char segment)) eqn:E; cbv iota.
    + apply (unquote_parts_escaped segment Hx "" eq_refl eq_refl).
    + f_equal. apply charwise_no_percent; [|exact E]. by_chars.
Qed.

Lemma replace_chars_escapes_witness :
  contains "%" "a#b?c d" = false
  /\ unquote (_replace_chars "a#b?c d") = Ok "a#b?c d".
Proof.
  split; [reflexivity|].
  apply (proj2 (proj2 (replace_chars_escapes "a#b?c d"))). reflexivity.
Defined.

(** ** A drive letter with no slash before it *)

(** X17: When the path starts with a drive letter and no slash, both [fs_path]
    and [to_fs_path] take the first character away as if it were the slash:
    the result starts with the colon, and the drive letter is lost.  For
    [to_fs_path] the uri is a lower-case scheme other than file, a colon
    and the path, and the rest of the path holds nothing that the parser
    would read otherwise ([#], [?], [%], [;], tab, line end). *)
Theorem bare_drive_letter_dropped (is_win : bool) l (rest : string) :
  is_alpha l = true ->
  (forall u, truthy (authority u) = false ->
             path u = Some (String l (String ":" rest)) ->
             fs_path is_win u = Some (String ":" (slashed is_win rest)))
  /\ (forall s, canonical_scheme s = true -> s <> "file" ->
        forallb part_char rest = true ->
        contains "%" rest = false -> contains ";" rest = false ->
        to_fs_path is_win (s +:+ String ":" (String l (String ":" rest)))
        = Ok (Some (native is_win (String ":" rest)))).
Proof.
  intros Hl. destruct (alpha_facts l Hl) as (Hb & Hlb & Hal & _).
  assert (F : forall c, implb (is_alpha c)
            (part_char c && negb (Ascii.eqb c "%") && negb (Ascii.eqb c ";")
             && negb (Ascii.eqb c "/")) = true) by by_chars.
  specialize (F l). rewrite Hl in F. cbn [implb] in F.
  apply andb_true_iff in F as [F Nslash]. apply andb_true_iff in F as [F Nsemi].
  apply andb_true_iff in F as [F Npct].
  apply negb_true_iff in Nslash, Nsemi, Npct.
  split.
  - intros u Ha Hp. unfold fs_path. rewrite Hp, Ha.
    cbn [truthy fmt andb]. change (negb (String l (String ":" rest) =? "")) with true.
    cbv iota.
    assert (Hs : slashed is_win (String l (String ":" rest))
                 = String l (String ":" (slashed is_win rest)))
      by now rewrite !slashed_cons.
    assert (Hn : _normalize_path is_win (String l (String ":" rest))
                 = String (lower_char l) (String ":" (slashed is_win rest))).
    { unfold _normalize_path.
      change (if is_win then replace backslash "/" (String l (String ":" rest))
              else String l (String ":" rest))
        with (slashed is_win (String l (String ":" rest))).
      rewrite Hs, (drive_match_bare _ _ Hl). reflexivity. }
    rewrite Hn. unfold RE_DRIVE_LETTER_PATH_matches.
    rewrite (drive_match_bare _ _ Hal). cbn [drop]. f_equal.
    fold (slashed is_win (String ":" (slashed is_win rest))).
    rewrite slashed_cons by reflexivity. f_equal. apply slashed_idempotent.
  - intros s Hs Hfile Hr Hpct Hsemi.
    set (p := String l (String ":" rest)).
    assert (Hsep : separator s "" = "").
    { unfold separator. apply String.eqb_neq in Hfile. now rewrite Hfile. }
    assert (Hsplit : urlsplit (s +:+ String ":" p) = Ok (s, "", p, "", "")).
    { pose proof (urlsplit_built s "" p "" "" Hs eq_refl) as Hb'.
      rewrite Hsep in Hb'.
      change (with_mark "?" "") with "" in Hb'.
      change (with_mark "#" "") with "" in Hb'.
      change ("" +:+ "" +:+ p +:+ "" +:+ "") with (p +:+ "" +:+ "") in Hb'.
      rewrite !sapp_nil_r in Hb'. apply Hb'; try reflexivity.
      - subst p. cbn [forallb]. now rewrite F, Hr.
      - discriminate.
      - intros _. split; [reflexivity|]. subst p. cbn. now rewrite Nslash. }
    unfold to_fs_path, Uris.urlparse, UrllibParse.urlparse.
    rewrite Hsplit. cbn [bind].
    assert (Hc : contains ";" p = false)
      by (subst p; cbn [contains]; now rewrite Nsemi, Hsemi).
    rewrite Hc, andb_false_r. cbn [bind].
    rewrite (unquote_plain s) by (apply canonical_no_percent; now right).
    change (unquote "") with (Ok (A:=string) "").
    rewrite (unquote_plain p)
      by (subst p; cbn [contains]; now rewrite Npct, Hpct).
    cbn [bind]. change (negb ("" =? "")) with false. cbn [andb].
    unfold RE_DRIVE_LETTER_PATH_matches. subst p.
    rewrite (drive_match_bare _ _ Hl). reflexivity.
Qed.

Lemma bare_drive_letter_dropped_witness :
  fs_path false (uri_of "untitled" "" "c:/work/a.txt" "" "")
  = Some ":/work/a.txt"
  /\ to_fs_path false "untitled:c:/work/a.txt" = Ok (Some ":/work/a.txt").
Proof.
  destruct (bare_drive_letter_dropped false "c" "/work/a.txt" eq_refl)
    as [H1 H2].
  split.
  - apply (H1 (uri_of "untitled" "" "c:/work/a.txt" "" "")); reflexivity.
  - apply (H2 "untitled"); try reflexivity. discriminate.
Defined.
